(** * fridata frontend: the [useDataTransform] hook and the [DataDiffViewer]

    A shallow embedding of the workflow hook
    (frontend/src/hooks/useDataTransform.ts), of the parts of the API
    contract it uses and of the upload percentage (lib/api), of the cell
    classification done by the DataDiffViewer component, and of the App
    component: what it renders and enables (uploader, chat, confirm,
    reset, download link) and the transcript it keeps.

    React state is modelled by an explicit record; every [setX v] of the
    source is an absolute write of one field.  An [async] handler is cut
    at its single [await]: the synchronous prefix ([_call]) may issue a
    gateway request, the continuation ([_settle]) runs on whatever the
    state is when the promise settles. *)

From Stdlib Require Import ZArith.
From stdpp Require Import base option list strings gmap pretty.

Local Open Scope string_scope.

(** ** JavaScript values that occur in previews *)

(** Cells of a preview row are JSON scalars; a missing key reads as
    [undefined].  [JsNumber n] stands for the number with the integer
    value [n]; it is a number of the code when [n] is a safe integer, and
    then its [String(..)] rendering is the decimal one.  Statements that
    depend on how a number prints carry [safeInteger]. *)
Inductive JsValue : Type :=
| JsUndefined
| JsNull
| JsBool (b : bool)
| JsNumber (n : Z)
| JsString (s : string).

Global Instance JsValue_eq_dec : EqDecision JsValue.
Proof. solve_decision. Defined.

(** [String(v)] *)
Definition jsToString (v : JsValue) : string :=
  match v with
  | JsUndefined => "undefined"
  | JsNull => "null"
  | JsBool true => "true"
  | JsBool false => "false"
  | JsNumber n => pretty n
  | JsString s => s
  end.

(** [Number.isSafeInteger]: the integers a double holds exactly, which
    [String(..)] prints digit by digit. *)
Definition safeInteger (n : Z) : Prop :=
  (- (2 ^ 53 - 1) <= n <= 2 ^ 53 - 1)%Z.

(** [v ?? d] *)
Definition nullish (v d : JsValue) : JsValue :=
  match v with
  | JsUndefined | JsNull => d
  | _ => v
  end.

(** A [Record<string, any>] and the member access [row[key]]. *)
Abbreviation Row := (gmap string JsValue).

Definition member (row : Row) (key : string) : JsValue :=
  default JsUndefined (row !! key).

(** Truthiness of a [string | null | undefined]: the empty string is falsy. *)
Definition nonEmpty (s : string) : bool :=
  match s with
  | EmptyString => false
  | String _ _ => true
  end.

Definition truthy (o : option string) : bool :=
  match o with
  | Some s => nonEmpty s
  | None => false
  end.

(** [o || d] for an optional string [o] and a string literal [d]. *)
Definition orElse (o : option string) (d : string) : string :=
  match o with
  | Some s => if nonEmpty s then s else d
  | None => d
  end.

(** ** The API contract (lib/api) *)

Record ColumnProfile : Type := mkColumnProfile {
  name : string;
  dtype : string;
  null_count : Z;
  unique_count : Z;
  sample_values : list JsValue
}.

Record DatasetProfile : Type := mkDatasetProfile {
  profile_job_id : string;
  filename : string;
  total_rows : Z;
  columns : list ColumnProfile;
  profile_preview : list Row
}.

Record TransformStep : Type := mkTransformStep {
  operation : string;
  parameters : Row;
  target_column : option string;
  explanation : option string
}.

Record PlanResponse : Type := mkPlanResponse {
  plan_job_id : string;
  steps : list TransformStep;
  estimated_impact : string
}.

Inductive Status : Type :=
| pending | analyzing | ready | processing | completed | failed.

Global Instance Status_eq_dec : EqDecision Status.
Proof. solve_decision. Defined.

Record ExecutionResult : Type := mkExecutionResult {
  result_job_id : string;
  status : Status;
  download_url : option string;
  metrics : Row;
  result_error : option string;
  result_preview : option (list Row)
}.

Record File : Type := mkFile {
  file_name : string;
  file_size : Z
}.

(** How a gateway promise settles: it resolves with the response body, or
    rejects; [detail] is what [err.response?.data?.detail] reads, [None]
    when any link of that chain is missing. *)
Inductive Outcome (A : Type) : Type :=
| Resolved (body : A)
| Rejected (detail : option string).
Arguments Resolved {A} body.
Arguments Rejected {A} detail.

(** The three gateway calls of the hook. *)
Inductive Request : Type :=
| uploadFile (file : File)
| generatePlan (jobId : string) (prompt : string)
| executePlan (jobId : string).

Inductive Response : Type :=
| uploadSettled (o : Outcome DatasetProfile)
| planSettled (o : Outcome PlanResponse)
| executeSettled (o : Outcome ExecutionResult).

(** The job id a response carries, when it carries one. *)
Definition responseJobId (r : Response) : option string :=
  match r with
  | uploadSettled (Resolved p) => Some (profile_job_id p)
  | planSettled (Resolved p) => Some (plan_job_id p)
  | executeSettled (Resolved e) => Some (result_job_id e)
  | _ => None
  end.

(** ** The hook state *)

Record State : Type := mkState {
  jobId : option string;
  datasetProfile : option DatasetProfile;
  proposedSteps : list TransformStep;
  isProcessing : bool;
  error : option string;
  uploadProgress : Z;
  executionResult : option ExecutionResult;
  currentData : list Row
}.

(** The [useState] initial values. *)
Definition initial : State :=
  {| jobId := None; datasetProfile := None; proposedSteps := [];
     isProcessing := false; error := None; uploadProgress := 0%Z;
     executionResult := None; currentData := [] |}.

Definition setJobId (v : option string) (s : State) : State :=
  {| jobId := v; datasetProfile := datasetProfile s;
     proposedSteps := proposedSteps s; isProcessing := isProcessing s;
     error := error s; uploadProgress := uploadProgress s;
     executionResult := executionResult s; currentData := currentData s |}.

Definition setDatasetProfile (v : option DatasetProfile) (s : State) : State :=
  {| jobId := jobId s; datasetProfile := v;
     proposedSteps := proposedSteps s; isProcessing := isProcessing s;
     error := error s; uploadProgress := uploadProgress s;
     executionResult := executionResult s; currentData := currentData s |}.

Definition setProposedSteps (v : list TransformStep) (s : State) : State :=
  {| jobId := jobId s; datasetProfile := datasetProfile s;
     proposedSteps := v; isProcessing := isProcessing s;
     error := error s; uploadProgress := uploadProgress s;
     executionResult := executionResult s; currentData := currentData s |}.

Definition setIsProcessing (v : bool) (s : State) : State :=
  {| jobId := jobId s; datasetProfile := datasetProfile s;
     proposedSteps := proposedSteps s; isProcessing := v;
     error := error s; uploadProgress := uploadProgress s;
     executionResult := executionResult s; currentData := currentData s |}.

Definition setError (v : option string) (s : State) : State :=
  {| jobId := jobId s; datasetProfile := datasetProfile s;
     proposedSteps := proposedSteps s; isProcessing := isProcessing s;
     error := v; uploadProgress := uploadProgress s;
     executionResult := executionResult s; currentData := currentData s |}.

Definition setUploadProgress (v : Z) (s : State) : State :=
  {| jobId := jobId s; datasetProfile := datasetProfile s;
     proposedSteps := proposedSteps s; isProcessing := isProcessing s;
     error := error s; uploadProgress := v;
     executionResult := executionResult s; currentData := currentData s |}.

Definition setExecutionResult (v : option ExecutionResult) (s : State) : State :=
  {| jobId := jobId s; datasetProfile := datasetProfile s;
     proposedSteps := proposedSteps s; isProcessing := isProcessing s;
     error := error s; uploadProgress := uploadProgress s;
     executionResult := v; currentData := currentData s |}.

Definition setCurrentData (v : list Row) (s : State) : State :=
  {| jobId := jobId s; datasetProfile := datasetProfile s;
     proposedSteps := proposedSteps s; isProcessing := isProcessing s;
     error := error s; uploadProgress := uploadProgress s;
     executionResult := executionResult s; currentData := v |}.

(** Statements of the source run top to bottom: [s |> f |> g] is [f] then [g]. *)
Notation "s |> f" := (f s) (at level 45, left associativity, only parsing).

(** The fields an observer of the controller reads, [isProcessing] apart. *)
Record Snapshot : Type := mkSnapshot {
  snap_jobId : option string;
  snap_datasetProfile : option DatasetProfile;
  snap_proposedSteps : list TransformStep;
  snap_executionResult : option ExecutionResult;
  snap_currentData : list Row;
  snap_error : option string;
  snap_uploadProgress : Z
}.

Definition observe (s : State) : Snapshot :=
  {| snap_jobId := jobId s; snap_datasetProfile := datasetProfile s;
     snap_proposedSteps := proposedSteps s;
     snap_executionResult := executionResult s;
     snap_currentData := currentData s; snap_error := error s;
     snap_uploadProgress := uploadProgress s |}.

(** ** The handlers of [useDataTransform] *)

(** [handleUpload], up to [await uploadFile(..)]. *)
Definition handleUpload_call (file : File) (s : State) : State * option Request :=
  (s |> setIsProcessing true |> setError None |> setUploadProgress 0%Z,
   Some (uploadFile file)).

(** The progress callback handed to [uploadFile]: [(p) => setUploadProgress(p)]. *)
Definition onProgress (p : Z) (s : State) : State :=
  s |> setUploadProgress p.

(** [handleUpload], from the settled promise on: try-rest, catch, finally. *)
Definition handleUpload_settle (o : Outcome DatasetProfile) (s : State) : State :=
  match o with
  | Resolved profile =>
      s |> setJobId (Some (profile_job_id profile))
        |> setDatasetProfile (Some profile)
        |> setCurrentData (profile_preview profile)
        |> setIsProcessing false
  | Rejected detail =>
      s |> setError (Some (orElse detail "Upload failed"))
        |> setIsProcessing false
  end.

(** [handleTransformRequest], up to [await generatePlan(..)]. *)
Definition handleTransformRequest_call (prompt : string) (s : State)
  : State * option Request :=
  match jobId s with
  | Some j =>
      if nonEmpty j
      then (s |> setIsProcessing true |> setError None,
            Some (generatePlan j prompt))
      else (s, None)
  | None => (s, None)
  end.

Definition handleTransformRequest_settle (o : Outcome PlanResponse) (s : State)
  : State :=
  match o with
  | Resolved plan =>
      s |> setProposedSteps (steps plan) |> setIsProcessing false
  | Rejected detail =>
      s |> setError (Some (orElse detail "Planning failed"))
        |> setIsProcessing false
  end.

(** [handleExecute], up to [await executePlan(..)]. *)
Definition handleExecute_call (s : State) : State * option Request :=
  match jobId s with
  | Some j =>
      if nonEmpty j
      then (s |> setIsProcessing true |> setError None,
            Some (executePlan j))
      else (s, None)
  | None => (s, None)
  end.

Definition handleExecute_settle (o : Outcome ExecutionResult) (s : State)
  : State :=
  match o with
  | Resolved result =>
      let s1 := s |> setExecutionResult (Some result) in
      let s2 :=
        match status result with
        | failed => s1 |> setError (Some (orElse (result_error result)
                                                 "Execution failed"))
        | _ => s1
        end in
      s2 |> setIsProcessing false
  | Rejected detail =>
      s |> setError (Some (orElse detail "Execution failed"))
        |> setIsProcessing false
  end.

Definition reset (s : State) : State :=
  s |> setJobId None
    |> setDatasetProfile None
    |> setProposedSteps []
    |> setExecutionResult None
    |> setCurrentData []
    |> setError None
    |> setUploadProgress 0%Z.

(** A handler run with nothing interleaved: the prefix, then the
    continuation on the outcome [o] of the gateway promise.  An upload may
    report progress in between. *)
Definition handleUpload (file : File) (progress : list Z)
    (o : Outcome DatasetProfile) (s : State) : State :=
  let s1 := (handleUpload_call file s).1 in
  handleUpload_settle o (foldl (fun acc p => onProgress p acc) s1 progress).

Definition handleTransformRequest (prompt : string)
    (o : Outcome PlanResponse) (s : State) : State :=
  match handleTransformRequest_call prompt s with
  | (s1, Some _) => handleTransformRequest_settle o s1
  | (s1, None) => s1
  end.

Definition handleExecute (o : Outcome ExecutionResult) (s : State) : State :=
  match handleExecute_call s with
  | (s1, Some _) => handleExecute_settle o s1
  | (s1, None) => s1
  end.

(** ** Interleavings: the hook together with its in-flight requests *)

Record World : Type := mkWorld {
  ctrl : State;
  inflight : list Request
}.

Inductive Event : Type :=
| callUpload (file : File)
| callTransformRequest (prompt : string)
| callExecute
| callReset
| progressed (p : Z)
| settled (k : nat) (r : Response).

Definition answers (q : Request) (r : Response) : bool :=
  match q, r with
  | uploadFile _, uploadSettled _ => true
  | generatePlan _ _, planSettled _ => true
  | executePlan _, executeSettled _ => true
  | _, _ => false
  end.

Definition isUpload (q : Request) : bool :=
  match q with
  | uploadFile _ => true
  | _ => false
  end.

(** The continuation a settled promise resumes. *)
Definition deliver (r : Response) (s : State) : State :=
  match r with
  | uploadSettled o => handleUpload_settle o s
  | planSettled o => handleTransformRequest_settle o s
  | executeSettled o => handleExecute_settle o s
  end.

Definition issue (w : World) (res : State * option Request) : World :=
  {| ctrl := res.1; inflight := inflight w ++ option_list res.2 |}.

(** One event; [None] when no such request is in flight. *)
Definition step (w : World) (e : Event) : option World :=
  match e with
  | callUpload file => Some (issue w (handleUpload_call file (ctrl w)))
  | callTransformRequest prompt =>
      Some (issue w (handleTransformRequest_call prompt (ctrl w)))
  | callExecute => Some (issue w (handleExecute_call (ctrl w)))
  | callReset => Some {| ctrl := reset (ctrl w); inflight := inflight w |}
  | progressed p =>
      if existsb isUpload (inflight w)
      then Some {| ctrl := onProgress p (ctrl w); inflight := inflight w |}
      else None
  | settled k r =>
      match inflight w !! k with
      | Some q =>
          if answers q r
          then Some {| ctrl := deliver r (ctrl w);
                       inflight := delete k (inflight w) |}
          else None
      | None => None
      end
  end.

Fixpoint run (evs : list Event) (w : World) : option World :=
  match evs with
  | [] => Some w
  | e :: evs' =>
      match step w e with
      | Some w' => run evs' w'
      | None => None
      end
  end.

Definition start : World := {| ctrl := initial; inflight := [] |}.

(** ** The App component: what it offers and what it hands to the viewer *)

(** The confirm button is rendered under
    [proposedSteps.length > 0 && !executionResult && !isProcessing]. *)
Definition confirmOffered (s : State) : bool :=
  (0 <? length (proposedSteps s))%nat
  && negb (bool_decide (is_Some (executionResult s)))
  && negb (isProcessing s).

(** [cleanedData={executionResult?.preview ?? undefined}] *)
Definition cleanedDataOf (s : State) : option (list Row) :=
  executionResult s ≫= result_preview.

(** ** DataDiffViewer *)

Inductive Highlight : Type :=
| plain
| struck      (* 'line-through text-red-500/50' *)
| emerald.    (* 'bg-emerald-500/10 text-emerald-400' *)

Record Cell : Type := mkCell {
  highlight : Highlight;
  text : string
}.

(** [!!cleanedData]: an array, even an empty one, is truthy. *)
Definition showDiff (cleanedData : option (list Row)) : bool :=
  match cleanedData with
  | Some _ => true
  | None => false
  end.

(** [showDiff && cleanedData && cleanedData[i] === undefined] *)
Definition isRemoved (cleanedData : option (list Row)) (i : nat) : bool :=
  showDiff cleanedData &&
  match cleanedData with
  | Some cd =>
      match cd !! i with
      | None => true
      | Some _ => false
      end
  | None => false
  end.

(** The text both panes print: [String(v ?? '')]. *)
Definition display (v : JsValue) : string :=
  jsToString (nullish v (JsString "")).

Definition leftCell (cleanedData : option (list Row)) (i : nat) (row : Row)
    (col : ColumnProfile) : Cell :=
  {| highlight := if isRemoved cleanedData i then struck else plain;
     text := display (member row (name col)) |}.

(** [originalData[i] ? originalData[i][col.name] : undefined] *)
Definition originalVal (originalData : list Row) (i : nat)
    (col : ColumnProfile) : JsValue :=
  match originalData !! i with
  | Some orow => member orow (name col)
  | None => JsUndefined
  end.

Definition newVal (row : Row) (col : ColumnProfile) : JsValue :=
  member row (name col).

(** [originalData[i] && String(originalVal) !== String(newVal)] *)
Definition isChanged (originalData : list Row) (i : nat) (row : Row)
    (col : ColumnProfile) : bool :=
  match originalData !! i with
  | Some _ =>
      negb (String.eqb (jsToString (originalVal originalData i col))
                       (jsToString (newVal row col)))
  | None => false
  end.

Definition rightCell (originalData : list Row) (i : nat) (row : Row)
    (col : ColumnProfile) : Cell :=
  {| highlight := if isChanged originalData i row col then emerald else plain;
     text := display (newVal row col) |}.

(** The two table bodies: [originalData.map((row, i) => columns.map(..))]
    and, when [cleanedData] is there, [cleanedData.map(..)]. *)
Definition leftPane (originalData : list Row) (cleanedData : option (list Row))
    (cols : list ColumnProfile) : list (list Cell) :=
  imap (fun i row => leftCell cleanedData i row <$> cols) originalData.

Definition rightPane (originalData : list Row) (cleanedData : option (list Row))
    (cols : list ColumnProfile) : option (list (list Cell)) :=
  (fun cd => imap (fun i row => rightCell originalData i row <$> cols) cd)
    <$> cleanedData.

(** The classification a reader takes from the two panes for the cell in
    row [i] and column [col]: struck through on the left, highlighted on
    the right, or neither. *)
Inductive CellStatus : Type :=
| unchanged
| changed
| removedInTransformed.

Definition classify (originalData cleanedData : list Row) (i : nat)
    (col : ColumnProfile) : CellStatus :=
  if isRemoved (Some cleanedData) i then removedInTransformed
  else
    match cleanedData !! i with
    | Some row => if isChanged originalData i row col then changed else unchanged
    | None => unchanged
    end.

(** ** Sample data: a three-row, two-column upload and its clean-up *)

Definition salesFile : File :=
  {| file_name := "sales.csv"; file_size := 2048 |}.

Definition idCol : ColumnProfile :=
  {| name := "id"; dtype := "int64"; null_count := 0; unique_count := 3;
     sample_values := [JsNumber 1; JsNumber 2; JsNumber 3] |}.

Definition priceCol : ColumnProfile :=
  {| name := "price"; dtype := "object"; null_count := 1; unique_count := 2;
     sample_values := [JsString "9.50"; JsNull; JsString "12"] |}.

Definition mkRow (id : Z) (price : JsValue) : Row :=
  <["id" := JsNumber id]> (<["price" := price]> ∅).

Definition salesPreview : list Row :=
  [mkRow 1 (JsString "9.50"); mkRow 2 JsNull; mkRow 3 (JsString "12")].

Definition salesProfile : DatasetProfile :=
  {| profile_job_id := "job-1"; filename := "sales.csv"; total_rows := 3;
     columns := [idCol; priceCol]; profile_preview := salesPreview |}.

Definition dropNulls : TransformStep :=
  {| operation := "drop_nulls"; parameters := <["subset" := JsString "price"]> ∅;
     target_column := Some "price"; explanation := None |}.

Definition salesPlan : PlanResponse :=
  {| plan_job_id := "job-1"; steps := [dropNulls];
     estimated_impact := "1 row removed" |}.

(** The cleaned preview: the row with the missing price is gone. *)
Definition cleanedPreview : list Row :=
  [mkRow 1 (JsString "9.50"); mkRow 3 (JsString "12")].

Definition salesResult : ExecutionResult :=
  {| result_job_id := "job-1"; status := completed;
     download_url := Some "/download/job-1"; metrics := ∅;
     result_error := None; result_preview := Some cleanedPreview |}.

(** A transport-level success that reports a job still running. *)
Definition runningResult : ExecutionResult :=
  {| result_job_id := "job-1"; status := processing;
     download_url := None; metrics := ∅;
     result_error := None; result_preview := None |}.

Definition failedResult : ExecutionResult :=
  {| result_job_id := "job-1"; status := failed;
     download_url := None; metrics := ∅;
     result_error := Some "division by zero"; result_preview := None |}.

(** The hook after the upload of [salesFile] resolved. *)
Definition profiled : State :=
  {| jobId := Some "job-1"; datasetProfile := Some salesProfile;
     proposedSteps := []; isProcessing := false; error := None;
     uploadProgress := 100; executionResult := None;
     currentData := salesPreview |}.

(** ... and after a plan was proposed for it. *)
Definition planProposed : State :=
  {| jobId := Some "job-1"; datasetProfile := Some salesProfile;
     proposedSteps := [dropNulls]; isProcessing := false; error := None;
     uploadProgress := 100; executionResult := None;
     currentData := salesPreview |}.

Definition toProfiled : list Event :=
  [callUpload salesFile; progressed 100;
   settled 0 (uploadSettled (Resolved salesProfile))].

Definition toPlanProposed : list Event :=
  toProfiled ++
  [callTransformRequest "drop nulls";
   settled 0 (planSettled (Resolved salesPlan))].

(** The plan is confirmed and, while the execute request is in flight,
    the user resets. *)
Definition resetWhileExecuting : list Event :=
  toPlanProposed ++ [callExecute; callReset].

(** The plan is confirmed and the execute call resolves. *)
Definition toCompleted : list Event :=
  toPlanProposed ++
  [callExecute; settled 0 (executeSettled (Resolved salesResult))].

(** The hook at the end of [resetWhileExecuting]. *)
Definition resetMidFlight : State :=
  {| jobId := None; datasetProfile := None; proposedSteps := [];
     isProcessing := true; error := None; uploadProgress := 0;
     executionResult := None; currentData := [] |}.

(** The first sales row with its id sent as text. *)
Definition textIdRow : Row :=
  <["id" := JsString "1"]> (<["price" := JsString "9.50"]> ∅).

(** One-row previews that differ only in how an empty price is encoded. *)
Definition nullPrice : list Row := [mkRow 7 JsNull].
Definition emptyPrice : list Row := [mkRow 7 (JsString "")].

(** ** The upload progress callback of [uploadFile] (lib/api) *)

(** Byte counts below this limit are those the percentage is stated for. *)
Definition byteLimit : Z := (2 ^ 46)%Z.

(** [Math.round((progressEvent.loaded * 100) / (progressEvent.total || 1))].
    [total] is undefined when the length is not computable; an undefined
    or zero total is replaced by 1.  Byte counts are integers; the product
    and the quotient are taken exactly and [Math.round] rounds half up.
    The code computes in doubles: for byte counts below [byteLimit] the
    product is exact and the rounded quotient cannot reach the next tie,
    so both agree there, and the statements about the percentage are
    made for such byte counts only. *)
Definition percentCompleted (loaded : Z) (total : option Z) : Z :=
  let t := match total with
           | Some t' => if (t' =? 0)%Z then 1%Z else t'
           | None => 1%Z
           end in
  ((2 * (loaded * 100) + t) / (2 * t))%Z.

(** ** FileUploader and ChatCommand: what reaches the handlers *)

(** [handleDrop] and [handleChange]: [files && files[0]] goes to
    [onUpload]; an empty list uploads nothing. *)
Definition handleDrop (files : list File) : option File := head files.

(** ** The App component: transcript and events *)

Inductive Role : Type := user | ai.

Record Entry : Type := mkEntry {
  role : Role;
  content : string
}.

Definition newline : string := String (Ascii.ascii_of_nat 10) "".

Definition greeting : Entry :=
  {| role := ai; content := "Ready. Upload a dataset to begin." |}.

(** The hook with its requests in flight, and the [history] state. *)
Record AppState : Type := mkAppState {
  hook : World;
  history : list Entry
}.

Definition appStart : AppState := {| hook := start; history := [greeting] |}.

(** What the user and the gateway can do to the mounted App.
    [uploadProgressed p]: the progress callback of [uploadFile] hands the
    percentage [p] to the hook. *)
Inductive UiEvent : Type :=
| dropFiles (files : list File)
| submitChat (input : string)
| clickConfirm
| clickReset
| uploadProgressed (p : Z)
| responded (k : nat) (r : Response).

(** The uploader is rendered under [!jobId] and is inert while
    [isProcessing && !datasetProfile]. *)
Definition uploaderShown (s : State) : bool := negb (truthy (jobId s)).

Definition isUploading (s : State) : bool :=
  isProcessing s && negb (bool_decide (is_Some (datasetProfile s))).

(** The chat and the reset button are rendered under [jobId]. *)
Definition chatShown (s : State) : bool := truthy (jobId s).
Definition resetShown (s : State) : bool := truthy (jobId s).


Section AppModel.

(** [String.prototype.trim] and [JSON.stringify] on a parameters object. *)
Variable trim : string -> string.
Variable stringify : Row -> string.

(** [ChatCommand.handleSubmit]: what is handed to [onSubmit], if anything. *)
Definition handleSubmit (busy : bool) (input : string) : option string :=
  if nonEmpty (trim input) && negb busy then Some input else None.

(** [`${i + 1}. [ ] ${s.operation}: ${JSON.stringify(s.parameters)}`] *)
Definition stepLine (i : nat) (s : TransformStep) : string :=
  pretty (i + 1)%nat +:+ ". [ ] " +:+ operation s +:+ ": "
  +:+ stringify (parameters s).

Definition planMessage (steps : list TransformStep) : string :=
  "I have generated a plan:" +:+ newline
  +:+ String.concat newline (imap stepLine steps)
  +:+ newline +:+ newline +:+ "Please confirm to execute.".

(** The effect on [proposedSteps]. *)
Definition planEffect (steps : list TransformStep) (h : list Entry) : list Entry :=
  if (0 <? length steps)%nat
  then h ++ [{| role := ai; content := planMessage steps |}]
  else h.

Definition completedMessage (result : ExecutionResult) : string :=
  "Transformation Complete!" +:+ newline +:+ "Processed "
  +:+ jsToString (member (metrics result) "input_rows") +:+ " rows in "
  +:+ jsToString (member (metrics result) "execution_time_sec") +:+ "s."
  +:+ newline +:+ newline +:+ "Usage: "
  +:+ jsToString (member (metrics result) "memory_usage_mb") +:+ " MB.".

(** [`Execution Failed: ${executionResult.error}`]; an absent error is
    taken to have arrived as JSON null. *)
Definition failedMessage (result : ExecutionResult) : string :=
  "Execution Failed: " +:+ default "null" (result_error result).

(** The effect on [executionResult]. *)
Definition resultEffect (r : option ExecutionResult) (h : list Entry) : list Entry :=
  match r with
  | Some result =>
      match status result with
      | completed => h ++ [{| role := ai; content := completedMessage result |}]
      | failed => h ++ [{| role := ai; content := failedMessage result |}]
      | _ => h
      end
  | None => h
  end.

(** The effects that run after a response was delivered: a resolved plan
    call wrote a fresh [proposedSteps], a resolved execute call a fresh
    [executionResult]. *)
Definition effects (r : Response) (s : State) (h : list Entry) : list Entry :=
  match r with
  | planSettled (Resolved _) => planEffect (proposedSteps s) h
  | executeSettled (Resolved _) => resultEffect (executionResult s) h
  | _ => h
  end.

Definition withHistory (h : list Entry) (ow : option World) : option AppState :=
  (fun w => {| hook := w; history := h |}) <$> ow.

(** One event on the mounted App; [None] when the element is not
    rendered or inert, or no such request is in flight.  [reset] writes a
    fresh [[]] and null, on which both effects do nothing. *)
Definition appStep (a : AppState) (e : UiEvent) : option AppState :=
  let s := ctrl (hook a) in
  match e with
  | dropFiles files =>
      if uploaderShown s && negb (isUploading s)
      then match handleDrop files with
           | Some file => withHistory (history a) (step (hook a) (callUpload file))
           | None => Some a
           end
      else None
  | submitChat input =>
      if chatShown s
      then match handleSubmit (isProcessing s) input with
           | Some text =>
               withHistory (history a ++ [{| role := user; content := text |}])
                 (step (hook a) (callTransformRequest text))
           | None => Some a
           end
      else None
  | clickConfirm =>
      if confirmOffered s
      then withHistory
             (history a ++ [{| role := user; content := "Confirmed. Execute plan." |}])
             (step (hook a) (callExecute))
      else None
  | clickReset =>
      if resetShown s
      then match step (hook a) callReset with
           | Some w =>
               Some {| hook := w;
                       history := resultEffect (executionResult (ctrl w))
                                    (planEffect (proposedSteps (ctrl w)) (history a)) |}
           | None => None
           end
      else None
  | uploadProgressed p =>
      withHistory (history a) (step (hook a) (progressed p))
  | responded k r =>
      match step (hook a) (settled k r) with
      | Some w => Some {| hook := w; history := effects r (ctrl w) (history a) |}
      | None => None
      end
  end.

Fixpoint appRun (evs : list UiEvent) (a : AppState) : option AppState :=
  match evs with
  | [] => Some a
  | e :: evs' =>
      match appStep a e with
      | Some a' => appRun evs' a'
      | None => None
      end
  end.

End AppModel.

(** The events that come from the user rather than from the gateway. *)
Definition userAction (e : UiEvent) : bool :=
  match e with
  | dropFiles _ | submitChat _ | clickConfirm | clickReset => true
  | uploadProgressed _ | responded _ _ => false
  end.

(** The server never hands out an empty job id. *)
Definition idIssued (e : UiEvent) : Prop :=
  match e with
  | responded _ (uploadSettled (Resolved profile)) =>
      nonEmpty (profile_job_id profile) = true
  | _ => True
  end.

(** ** Invariants of the hook *)

(** [jobId], [datasetProfile] and [currentData] describe one upload. *)
Definition coherent (s : State) : Prop :=
  jobId s = profile_job_id <$> datasetProfile s /\
  currentData s = from_option profile_preview [] (datasetProfile s).

(** A plan or execute request names a job. *)
Definition namesJob (q : Request) : Prop :=
  match q with
  | generatePlan j _ => nonEmpty j = true
  | executePlan j => nonEmpty j = true
  | uploadFile _ => True
  end.

(** At most one request is in flight, [isProcessing] tells whether one
    is, the job id shown is a non-empty one of a stored profile, and no
    job is shown while an upload is in flight. *)
Definition serialized (w : World) : Prop :=
  (length (inflight w) <= 1)%nat /\
  (isProcessing (ctrl w) = true <-> inflight w <> []) /\
  coherent (ctrl w) /\
  (forall j, jobId (ctrl w) = Some j -> nonEmpty j = true) /\
  (existsb isUpload (inflight w) = true -> jobId (ctrl w) = None).

(** ** More sample data *)

(** [trim] on ASCII white space. *)
Definition isSpace (c : Ascii.ascii) : bool :=
  match Ascii.nat_of_ascii c with
  | 9 | 10 | 11 | 12 | 13 | 32 => true
  | _ => false
  end.

Fixpoint dropSpaces (s : string) : string :=
  match s with
  | String c s' => if isSpace c then dropSpaces s' else s
  | EmptyString => EmptyString
  end.

Definition asciiTrim (s : string) : string :=
  String.rev (dropSpaces (String.rev (dropSpaces s))).

(** [JSON.stringify] on the empty object, the only one the sample plan holds. *)
Definition stringifyEmpty (r : Row) : string := "{}".

Definition dropDuplicates : TransformStep :=
  {| operation := "drop_duplicates"; parameters := ∅;
     target_column := None; explanation := None |}.

Definition dedupPlan : PlanResponse :=
  {| plan_job_id := "job-1"; steps := [dropDuplicates];
     estimated_impact := "none" |}.

(** Upload, prompt and, with the plan call in flight, reset; then the
    plan arrives. *)
Definition resetWhilePlanning : list UiEvent :=
  [dropFiles [salesFile];
   uploadProgressed 100;
   responded 0 (uploadSettled (Resolved salesProfile));
   submitChat "drop duplicates";
   clickReset;
   responded 0 (planSettled (Resolved dedupPlan))].

Definition toPlanning : list UiEvent :=
  [dropFiles [salesFile];
   responded 0 (uploadSettled (Resolved salesProfile));
   submitChat "drop duplicates"].

Definition uploadPlanConfirm : list UiEvent :=
  toPlanning ++
  [responded 0 (planSettled (Resolved dedupPlan)); clickConfirm].

(** The App while the first upload is in flight. *)
Definition uploading : AppState :=
  {| hook := {| ctrl := setIsProcessing true initial;
                inflight := [uploadFile salesFile] |};
     history := [greeting] |}.

(** ... and after that upload was rejected without a detail. *)
Definition uploadRejected : AppState :=
  {| hook := {| ctrl := setError (Some "Upload failed") initial;
                inflight := [] |};
     history := [greeting] |}.

(** The App at the end of [toPlanning]. *)
Definition planning : AppState :=
  {| hook := {| ctrl := {| jobId := Some "job-1";
                           datasetProfile := Some salesProfile;
                           proposedSteps := []; isProcessing := true;
                           error := None; uploadProgress := 0;
                           executionResult := None;
                           currentData := salesPreview |};
                inflight := [generatePlan "job-1" "drop duplicates"] |};
     history := [greeting; {| role := user; content := "drop duplicates" |}] |}.

(** The App at the end of [uploadPlanConfirm]. *)
Definition executing : AppState :=
  {| hook := {| ctrl := {| jobId := Some "job-1";
                           datasetProfile := Some salesProfile;
                           proposedSteps := [dropDuplicates];
                           isProcessing := true;
                           error := None; uploadProgress := 0;
                           executionResult := None;
                           currentData := salesPreview |};
                inflight := [executePlan "job-1"] |};
     history := [greeting;
                 {| role := user; content := "drop duplicates" |};
                 {| role := ai;
                    content := planMessage stringifyEmpty [dropDuplicates] |};
                 {| role := user; content := "Confirmed. Execute plan." |}] |}.

(** The App at the end of [resetWhilePlanning]: a plan and no job. *)
Definition planWithoutJob : AppState :=
  {| hook := {| ctrl := {| jobId := None; datasetProfile := None;
                           proposedSteps := [dropDuplicates];
                           isProcessing := false;
                           error := None; uploadProgress := 0;
                           executionResult := None; currentData := [] |};
                inflight := [] |};
     history := [greeting;
                 {| role := user; content := "drop duplicates" |};
                 {| role := ai;
                    content := planMessage stringifyEmpty [dropDuplicates] |}] |}.

(** ** Field-by-field reasoning *)

Ltac unfold_handlers :=
  cbv [handleUpload handleTransformRequest handleExecute
       handleUpload_call handleTransformRequest_call handleExecute_call
       handleUpload_settle handleTransformRequest_settle handleExecute_settle
       onProgress deliver reset observe truthy] in *.

Ltac fields :=
  cbv [setJobId setDatasetProfile setProposedSteps setIsProcessing setError
       setUploadProgress setExecutionResult setCurrentData
       jobId datasetProfile proposedSteps isProcessing error uploadProgress
       executionResult currentData fst snd] in *.

Lemma truthy_Some (o : option string) :
  truthy o = true -> exists j, o = Some j /\ nonEmpty j = true.
Proof. destruct o as [j|]; simpl; [eauto | discriminate]. Qed.

Lemma orElse_present (d dflt : string) :
  nonEmpty d = true -> orElse (Some d) dflt = d.
Proof. intros H. simpl. now rewrite H. Qed.

Lemma orElse_absent (o : option string) (dflt : string) :
  truthy o = false -> orElse o dflt = dflt.
Proof. destruct o as [d|]; simpl; [intros -> | ]; reflexivity. Qed.

(** Progress reports write [uploadProgress] and nothing else. *)
Lemma progress_frame (ps : list Z) (s : State) :
  let s' := foldl (fun acc p => onProgress p acc) s ps in
  jobId s' = jobId s /\ datasetProfile s' = datasetProfile s /\
  proposedSteps s' = proposedSteps s /\ isProcessing s' = isProcessing s /\
  error s' = error s /\ executionResult s' = executionResult s /\
  currentData s' = currentData s.
Proof.
  revert s. induction ps as [|p ps IH]; intros s; simpl; [tauto|].
  specialize (IH (onProgress p s)). simpl in IH.
  destruct IH as (-> & -> & -> & -> & -> & -> & ->).
  destruct s; repeat split; reflexivity.
Qed.

Lemma run_app (evs evs' : list Event) (w : World) :
  run (evs ++ evs') w = run evs w ≫= run evs'.
Proof.
  revert w. induction evs as [|e evs IH]; intros w; simpl; [reflexivity|].
  destruct (step w e) as [w'|]; [apply IH | reflexivity].
Qed.

Lemma reach_profiled : run toProfiled start = Some {| ctrl := profiled; inflight := [] |}.
Proof. reflexivity. Qed.

Lemma reach_planProposed :
  run toPlanProposed start = Some {| ctrl := planProposed; inflight := [] |}.
Proof. reflexivity. Qed.

Lemma reach_resetMidFlight :
  run resetWhileExecuting start
  = Some {| ctrl := resetMidFlight; inflight := [executePlan "job-1"] |}.
Proof. reflexivity. Qed.

(** Upload, prompt, confirm: the viewer is handed the working preview and
    the result's preview; the dropped third row is marked removed, the
    second row, now holding what was the third, is marked changed. *)
Example upload_plan_confirm_then_diff :
  exists w, run toCompleted start = Some w /\
    inflight w = [] /\
    error (ctrl w) = None /\
    confirmOffered (ctrl w) = false /\
    currentData (ctrl w) = salesPreview /\
    cleanedDataOf (ctrl w) = Some cleanedPreview /\
    classify salesPreview cleanedPreview 0 priceCol = unchanged /\
    classify salesPreview cleanedPreview 1 priceCol = changed /\
    classify salesPreview cleanedPreview 2 idCol = removedInTransformed.
Proof. eexists. split; [reflexivity|]. repeat split; vm_compute; reflexivity. Qed.

(** ** The workflow controller *)

(** C7: [reset], called in any state, leaves the initial snapshot:
    no job id, no profile, an empty plan, no execution result, an empty
    working preview, no error and progress 0.  In particular this holds
    at the end of every run of the hook, requests in flight or not. *)
Theorem reset_yields_initial_snapshot (s : State) :
  observe (reset s) = observe initial /\
  jobId (reset s) = None /\
  datasetProfile (reset s) = None /\
  proposedSteps (reset s) = [] /\
  executionResult (reset s) = None /\
  currentData (reset s) = [] /\
  error (reset s) = None /\
  uploadProgress (reset s) = 0%Z /\
  (forall evs w, run evs start = Some w ->
     exists w', run (evs ++ [callReset]) start = Some w' /\
       inflight w' = inflight w /\
       observe (ctrl w') = observe initial).
Proof.
  repeat split.
  intros evs w Hrun. rewrite run_app, Hrun. simpl.
  eexists. repeat split.
Qed.

(** C9: with no job ([jobId] null) both [handleTransformRequest] and
    [handleExecute] return at once: no gateway request is issued, no
    error is set and the state is the one they were called in, whatever
    the gateway would have answered. *)
Theorem no_job_is_silent_noop (s : State) (prompt : string)
    (po : Outcome PlanResponse) (eo : Outcome ExecutionResult) :
  jobId s = None ->
  handleTransformRequest_call prompt s = (s, None) /\
  handleExecute_call s = (s, None) /\
  handleTransformRequest prompt po s = s /\
  handleExecute eo s = s /\
  error (handleTransformRequest prompt po s) = error s /\
  error (handleExecute eo s) = error s.
Proof.
  intros Hj.
  assert (Hp : handleTransformRequest_call prompt s = (s, None))
    by (unfold handleTransformRequest_call; now rewrite Hj).
  assert (He : handleExecute_call s = (s, None))
    by (unfold handleExecute_call; now rewrite Hj).
  unfold handleTransformRequest, handleExecute. rewrite Hp, He.
  repeat split.
Qed.

Lemma no_job_is_silent_noop_witness :
  handleTransformRequest_call "drop nulls" initial = (initial, None) /\
  handleExecute_call initial = (initial, None) /\
  handleTransformRequest "drop nulls" (Resolved salesPlan) initial = initial /\
  handleExecute (Resolved salesResult) initial = initial /\
  error (handleTransformRequest "drop nulls" (Resolved salesPlan) initial)
    = error initial /\
  error (handleExecute (Resolved salesResult) initial) = error initial.
Proof.
  apply (no_job_is_silent_noop initial "drop nulls"
           (Resolved salesPlan) (Resolved salesResult)).
  reflexivity.
Defined.

(** C10: a successful upload writes [jobId], [datasetProfile] and
    [currentData] from the returned profile and leaves [proposedSteps] and
    [executionResult] as they were, so a plan or result of an earlier job
    is still there afterwards. *)
Theorem upload_success_keeps_plan_and_result (s : State) (file : File)
    (progress : list Z) (profile : DatasetProfile) :
  jobId (handleUpload file progress (Resolved profile) s)
    = Some (profile_job_id profile) /\
  datasetProfile (handleUpload file progress (Resolved profile) s)
    = Some profile /\
  currentData (handleUpload file progress (Resolved profile) s)
    = profile_preview profile /\
  proposedSteps (handleUpload file progress (Resolved profile) s)
    = proposedSteps s /\
  executionResult (handleUpload file progress (Resolved profile) s)
    = executionResult s.
Proof.
  unfold handleUpload.
  pose proof (progress_frame progress (handleUpload_call file s).1) as F.
  simpl in F. destruct F as (_ & _ & Fp & _ & _ & Fe & _).
  unfold handleUpload_settle. fields.
  repeat split; first [exact Fp | exact Fe].
Qed.

(** C1, as claimed, fails: the execute response of job-1 arrives after a
    reset that happened while the request was in flight.  The hook then
    has no job id, the response carries "job-1", and delivering it still
    stores the result, so the snapshot changes. *)
Lemma late_execute_response_is_applied :
  run resetWhileExecuting start
    = Some {| ctrl := resetMidFlight; inflight := [executePlan "job-1"] |} /\
  jobId resetMidFlight = None /\
  responseJobId (executeSettled (Resolved salesResult)) = Some "job-1" /\
  executionResult resetMidFlight = None /\
  executionResult (deliver (executeSettled (Resolved salesResult)) resetMidFlight)
    = Some salesResult /\
  observe (deliver (executeSettled (Resolved salesResult)) resetMidFlight)
    <> observe resetMidFlight.
Proof.
  split; [exact reach_resetMidFlight|].
  repeat split; try reflexivity.
  intros H. discriminate H.
Qed.

(** C1, amended: a response whose job id differs from the hook's current
    one is applied like any other.  An upload response overwrites
    [jobId], [datasetProfile] and [currentData]; a plan response
    overwrites [proposedSteps]; an execute response overwrites
    [executionResult], and [error] too when its status is failed.  Only
    the observable fields the continuation does not write are unchanged. *)
Theorem late_response_overwrites_its_fields (s : State) (r : Response)
    (j : string) :
  responseJobId r = Some j ->
  jobId s <> Some j ->
  match r with
  | uploadSettled (Resolved profile) =>
      observe (deliver r s)
      = {| snap_jobId := Some (profile_job_id profile);
           snap_datasetProfile := Some profile;
           snap_proposedSteps := proposedSteps s;
           snap_executionResult := executionResult s;
           snap_currentData := profile_preview profile;
           snap_error := error s;
           snap_uploadProgress := uploadProgress s |}
  | planSettled (Resolved plan) =>
      observe (deliver r s)
      = {| snap_jobId := jobId s;
           snap_datasetProfile := datasetProfile s;
           snap_proposedSteps := steps plan;
           snap_executionResult := executionResult s;
           snap_currentData := currentData s;
           snap_error := error s;
           snap_uploadProgress := uploadProgress s |}
  | executeSettled (Resolved result) =>
      observe (deliver r s)
      = {| snap_jobId := jobId s;
           snap_datasetProfile := datasetProfile s;
           snap_proposedSteps := proposedSteps s;
           snap_executionResult := Some result;
           snap_currentData := currentData s;
           snap_error :=
             match status result with
             | failed => Some (orElse (result_error result) "Execution failed")
             | _ => error s
             end;
           snap_uploadProgress := uploadProgress s |}
  | _ => False
  end.
Proof.
  intros Hr _.
  destruct r as [[p|d]|[p|d]|[e|d]]; try discriminate Hr; try reflexivity.
  simpl. destruct (status e); reflexivity.
Qed.

Lemma late_response_overwrites_its_fields_witness :
  observe (deliver (executeSettled (Resolved salesResult)) resetMidFlight)
  = {| snap_jobId := None;
       snap_datasetProfile := None;
       snap_proposedSteps := [];
       snap_executionResult := Some salesResult;
       snap_currentData := [];
       snap_error := None;
       snap_uploadProgress := 0 |}.
Proof.
  apply (late_response_overwrites_its_fields resetMidFlight
           (executeSettled (Resolved salesResult)) "job-1").
  - reflexivity.
  - discriminate.
Defined.

(** C2, as claimed, fails: the execute call for job-1 resolves with a
    result whose status is processing.  The result is stored and no error
    is surfaced although the status is not completed. *)
Lemma running_result_surfaces_no_error :
  truthy (jobId planProposed) = true /\
  status runningResult <> completed /\
  executionResult (handleExecute (Resolved runningResult) planProposed)
    = Some runningResult /\
  error (handleExecute (Resolved runningResult) planProposed) = None.
Proof. repeat split. discriminate. Qed.

(** C2, amended: when [handleExecute] runs with an active job and the
    execute call resolves, the result is stored, and an error is surfaced
    if and only if the status is failed: it is the result's error when
    that is non-empty and "Execution failed" otherwise.  For every other
    status, completed or not, the error stays cleared. *)
Theorem execute_resolved_error_iff_failed (s : State)
    (result : ExecutionResult) :
  truthy (jobId s) = true ->
  executionResult (handleExecute (Resolved result) s) = Some result /\
  (status result = failed ->
     error (handleExecute (Resolved result) s)
     = Some (orElse (result_error result) "Execution failed")) /\
  (status result <> failed ->
     error (handleExecute (Resolved result) s) = None) /\
  (error (handleExecute (Resolved result) s) = None <->
     status result <> failed) /\
  (forall msg, status result = failed -> result_error result = Some msg ->
     nonEmpty msg = true ->
     error (handleExecute (Resolved result) s) = Some msg).
Proof.
  intros Hj. apply truthy_Some in Hj as (j & Hj & Hne).
  unfold handleExecute, handleExecute_call. rewrite Hj, Hne.
  unfold handleExecute_settle. fields.
  split; [destruct (status result); reflexivity|].
  split; [intros ->; reflexivity|].
  split; [destruct (status result); intros H; try reflexivity; now destruct H|].
  split.
  - destruct (status result); split; intros H; try discriminate;
      try reflexivity; now destruct H.
  - intros msg -> -> Hm. simpl. now rewrite Hm.
Qed.

Lemma execute_resolved_error_iff_failed_witness :
  executionResult (handleExecute (Resolved failedResult) planProposed)
    = Some failedResult /\
  (status failedResult = failed ->
     error (handleExecute (Resolved failedResult) planProposed)
     = Some (orElse (result_error failedResult) "Execution failed")) /\
  (status failedResult <> failed ->
     error (handleExecute (Resolved failedResult) planProposed) = None) /\
  (error (handleExecute (Resolved failedResult) planProposed) = None <->
     status failedResult <> failed) /\
  (forall msg, status failedResult = failed ->
     result_error failedResult = Some msg ->
     nonEmpty msg = true ->
     error (handleExecute (Resolved failedResult) planProposed) = Some msg).
Proof.
  apply (execute_resolved_error_iff_failed planProposed failedResult).
  reflexivity.
Defined.

(** C3, as claimed, fails: a plan is proposed for job-1, the user prompts
    again and the plan call is rejected.  The earlier plan is neither
    cleared when the call starts nor afterwards. *)
Lemma rejected_plan_call_keeps_old_plan :
  truthy (jobId planProposed) = true /\
  proposedSteps (handleTransformRequest_call "fill prices" planProposed).1
    = [dropNulls] /\
  proposedSteps (handleTransformRequest "fill prices" (Rejected None) planProposed)
    = [dropNulls] /\
  proposedSteps (handleTransformRequest "fill prices" (Rejected None) planProposed)
    <> [].
Proof. repeat split. discriminate. Qed.

(** C3, amended: [handleTransformRequest] with an active job does not
    touch the proposed plan when it starts: the call sets [isProcessing],
    clears [error], issues the plan request for the job and writes
    nothing else.  If the plan call is rejected the earlier plan is
    still in place, the error is the server's detail when that is
    non-empty and "Planning failed" otherwise, and job id and dataset
    profile are unchanged: the state differs from the one before the call
    in [error] and [isProcessing] only. *)
Theorem plan_rejected_keeps_plan_surfaces_error (s : State) (prompt : string)
    (detail : option string) :
  truthy (jobId s) = true ->
  (exists j, jobId s = Some j /\
     handleTransformRequest_call prompt s
     = (s |> setIsProcessing true |> setError None,
        Some (generatePlan j prompt))) /\
  handleTransformRequest prompt (Rejected detail) s
  = (s |> setError (Some (orElse detail "Planning failed"))
       |> setIsProcessing false) /\
  proposedSteps (handleTransformRequest_call prompt s).1 = proposedSteps s /\
  proposedSteps (handleTransformRequest prompt (Rejected detail) s)
    = proposedSteps s /\
  error (handleTransformRequest prompt (Rejected detail) s)
    = Some (orElse detail "Planning failed") /\
  (forall d, detail = Some d -> nonEmpty d = true ->
     error (handleTransformRequest prompt (Rejected detail) s) = Some d) /\
  (truthy detail = false ->
     error (handleTransformRequest prompt (Rejected detail) s)
     = Some "Planning failed") /\
  jobId (handleTransformRequest prompt (Rejected detail) s) = jobId s /\
  datasetProfile (handleTransformRequest prompt (Rejected detail) s)
    = datasetProfile s.
Proof.
  intros Hj. apply truthy_Some in Hj as (j & Hj & Hne).
  split.
  { exists j. split; [exact Hj|].
    unfold handleTransformRequest_call. now rewrite Hj, Hne. }
  unfold handleTransformRequest, handleTransformRequest_call.
  rewrite Hj, Hne. unfold handleTransformRequest_settle. fields.
  repeat split; try exact Hj.
  - intros d -> Hd. now rewrite orElse_present.
  - intros Hd. now rewrite orElse_absent.
Qed.

Lemma plan_rejected_keeps_plan_surfaces_error_witness :
  (exists j, jobId planProposed = Some j /\
     handleTransformRequest_call "fill prices" planProposed
     = (planProposed |> setIsProcessing true |> setError None,
        Some (generatePlan j "fill prices"))) /\
  handleTransformRequest "fill prices" (Rejected (Some "LLM unavailable"))
    planProposed
  = (planProposed
       |> setError (Some (orElse (Some "LLM unavailable") "Planning failed"))
       |> setIsProcessing false) /\
  proposedSteps (handleTransformRequest_call "fill prices" planProposed).1
    = proposedSteps planProposed /\
  proposedSteps
    (handleTransformRequest "fill prices" (Rejected (Some "LLM unavailable"))
       planProposed)
    = proposedSteps planProposed /\
  error
    (handleTransformRequest "fill prices" (Rejected (Some "LLM unavailable"))
       planProposed)
    = Some (orElse (Some "LLM unavailable") "Planning failed") /\
  (forall d, Some "LLM unavailable" = Some d -> nonEmpty d = true ->
     error
       (handleTransformRequest "fill prices" (Rejected (Some "LLM unavailable"))
          planProposed) = Some d) /\
  (truthy (Some "LLM unavailable") = false ->
     error
       (handleTransformRequest "fill prices" (Rejected (Some "LLM unavailable"))
          planProposed) = Some "Planning failed") /\
  jobId
    (handleTransformRequest "fill prices" (Rejected (Some "LLM unavailable"))
       planProposed) = jobId planProposed /\
  datasetProfile
    (handleTransformRequest "fill prices" (Rejected (Some "LLM unavailable"))
       planProposed) = datasetProfile planProposed.
Proof.
  apply (plan_rejected_keeps_plan_surfaces_error planProposed "fill prices"
           (Some "LLM unavailable")).
  reflexivity.
Defined.

(** C4, as claimed, fails: right after the upload of job-1 no plan is
    proposed, yet [handleExecute] issues the execute request and marks
    the hook as processing. *)
Lemma execute_without_plan_calls_gateway :
  proposedSteps profiled = [] /\
  (handleExecute_call profiled).2 = Some (executePlan "job-1") /\
  isProcessing profiled = false /\
  isProcessing (handleExecute_call profiled).1 = true /\
  executionResult (handleExecute (Resolved salesResult) profiled)
    = Some salesResult.
Proof. repeat split. Qed.

(** C4, amended: [handleExecute] looks at the job id only.  With an
    active job it issues the execute request whether or not a plan is
    proposed; with none it does nothing.  That a plan is proposed is
    required by the App component, which renders the confirm action only
    while [proposedSteps] is non-empty, no result is stored and nothing
    is processing. *)
Theorem execute_gated_by_job_confirm_gated_by_plan (s : State) :
  (forall j, jobId s = Some j -> nonEmpty j = true ->
     handleExecute_call s
     = (s |> setIsProcessing true |> setError None, Some (executePlan j))) /\
  (truthy (jobId s) = false -> handleExecute_call s = (s, None)) /\
  (confirmOffered s = true ->
     proposedSteps s <> [] /\ executionResult s = None /\
     isProcessing s = false).
Proof.
  split; [|split].
  - intros j Hj Hne. unfold handleExecute_call. now rewrite Hj, Hne.
  - unfold handleExecute_call, truthy.
    destruct (jobId s) as [j|]; [intros ->|]; reflexivity.
  - unfold confirmOffered. intros H.
    apply andb_prop in H as [H Hp]. apply andb_prop in H as [Hl He].
    repeat split.
    + intros Hnil. rewrite Hnil in Hl. discriminate Hl.
    + destruct (executionResult s); [discriminate He | reflexivity].
    + now destruct (isProcessing s).
Qed.

(** C8, as claimed, fails: job-1 is active and a further upload is
    rejected.  The error is surfaced, but the job id is still "job-1",
    not null. *)
Lemma rejected_upload_keeps_earlier_job :
  run toProfiled start = Some {| ctrl := profiled; inflight := [] |} /\
  error (handleUpload salesFile [] (Rejected None) profiled)
    = Some "Upload failed" /\
  jobId (handleUpload salesFile [] (Rejected None) profiled) = Some "job-1" /\
  jobId (handleUpload salesFile [] (Rejected None) profiled) <> None.
Proof. split; [exact reach_profiled|]. repeat split. discriminate. Qed.

(** C8, amended: when the upload call is rejected the error is the
    server's detail when that is non-empty and "Upload failed" otherwise,
    and no job state is written: job id, dataset profile and working
    preview are what they were before the call, so the job id is null
    whenever the upload started without a job. *)
Theorem upload_rejected_surfaces_error_keeps_job (s : State) (file : File)
    (progress : list Z) (detail : option string) :
  error (handleUpload file progress (Rejected detail) s)
    = Some (orElse detail "Upload failed") /\
  (forall d, detail = Some d -> nonEmpty d = true ->
     error (handleUpload file progress (Rejected detail) s) = Some d) /\
  (truthy detail = false ->
     error (handleUpload file progress (Rejected detail) s)
     = Some "Upload failed") /\
  jobId (handleUpload file progress (Rejected detail) s) = jobId s /\
  datasetProfile (handleUpload file progress (Rejected detail) s)
    = datasetProfile s /\
  currentData (handleUpload file progress (Rejected detail) s)
    = currentData s /\
  (jobId s = None ->
     jobId (handleUpload file progress (Rejected detail) s) = None).
Proof.
  unfold handleUpload.
  pose proof (progress_frame progress (handleUpload_call file s).1) as F.
  simpl in F. destruct F as (Fj & Fd & _ & _ & _ & _ & Fc).
  unfold handleUpload_settle. fields.
  repeat split; try assumption.
  - intros d -> Hd. now rewrite orElse_present.
  - intros Hd. now rewrite orElse_absent.
  - intros <-. assumption.
Qed.

(** ** The diff viewer *)

Lemma isRemoved_Some (cd : list Row) (i : nat) :
  isRemoved (Some cd) i = bool_decide (cd !! i = None).
Proof.
  unfold isRemoved. simpl. destruct (cd !! i) eqn:E.
  - rewrite bool_decide_eq_false_2; [reflexivity | discriminate].
  - rewrite bool_decide_eq_true_2; reflexivity.
Qed.

Lemma isRemoved_ge (cd : list Row) (i : nat) :
  length cd <= i -> isRemoved (Some cd) i = true.
Proof.
  intros H. rewrite isRemoved_Some. apply bool_decide_eq_true_2.
  now apply lookup_ge_None_2.
Qed.

Lemma isRemoved_lt (cd : list Row) (i : nat) (row : Row) :
  cd !! i = Some row -> isRemoved (Some cd) i = false.
Proof.
  intros H. rewrite isRemoved_Some. apply bool_decide_eq_false_2. congruence.
Qed.

Lemma isChanged_true (originalData : list Row) (i : nat) (row : Row)
    (col : ColumnProfile) :
  isChanged originalData i row col = true <->
  exists orow, originalData !! i = Some orow /\
    jsToString (member orow (name col)) <> jsToString (member row (name col)).
Proof.
  unfold isChanged, originalVal, newVal.
  destruct (originalData !! i) as [orow|] eqn:E.
  - rewrite negb_true_iff, String.eqb_neq. split.
    + intros H. exists orow. split; [reflexivity | exact H].
    + intros (orow' & Ho & H). injection Ho as <-. exact H.
  - split; [discriminate | intros (orow & Ho & _); discriminate].
Qed.

Lemma classify_present (originalData cleanedData : list Row) (i : nat)
    (row : Row) (col : ColumnProfile) :
  cleanedData !! i = Some row ->
  classify originalData cleanedData i col
  = if isChanged originalData i row col then changed else unchanged.
Proof.
  intros H. unfold classify. now rewrite (isRemoved_lt _ _ _ H), H.
Qed.

(** The cells the two panes hold at row [i], column number [k]. *)
Lemma leftPane_cell (originalData : list Row) (cleanedData : option (list Row))
    (cols : list ColumnProfile) (i k : nat) (row : Row) (col : ColumnProfile) :
  originalData !! i = Some row -> cols !! k = Some col ->
  leftPane originalData cleanedData cols !! i ≫= (fun r => r !! k)
  = Some (leftCell cleanedData i row col).
Proof.
  intros Hi Hk. unfold leftPane. rewrite list_lookup_imap, Hi. simpl.
  now rewrite list_lookup_fmap, Hk.
Qed.

Lemma rightPane_cell (originalData cleanedData : list Row)
    (cols : list ColumnProfile) (i k : nat) (row : Row) (col : ColumnProfile) :
  cleanedData !! i = Some row -> cols !! k = Some col ->
  (rightPane originalData (Some cleanedData) cols ≫= (fun t => t !! i))
    ≫= (fun r => r !! k)
  = Some (rightCell originalData i row col).
Proof.
  intros Hi Hk. unfold rightPane. simpl. rewrite list_lookup_imap, Hi. simpl.
  now rewrite list_lookup_fmap, Hk.
Qed.

(** [classify] is what the panes show: a row of the cleaned preview is
    highlighted on the right exactly when its cell classifies as changed. *)
Lemma classify_reads_right_pane (originalData cleanedData : list Row)
    (i : nat) (row : Row) (col : ColumnProfile) :
  cleanedData !! i = Some row ->
  (highlight (rightCell originalData i row col) = emerald <->
   classify originalData cleanedData i col = changed) /\
  highlight (leftCell (Some cleanedData) i row col) = plain.
Proof.
  intros H. rewrite (classify_present _ _ _ _ _ H). unfold leftCell, rightCell.
  simpl. rewrite (isRemoved_lt _ _ _ H).
  destruct (isChanged originalData i row col); split;
    first [reflexivity | split; intros; first [reflexivity | discriminate]].
Qed.

(** Writing one cell of a row leaves every other key of that row alone. *)
Lemma member_insert_ne (row : Row) (key key' : string) (v : JsValue) :
  key <> key' -> member (<[key := v]> row) key' = member row key'.
Proof. intros H. unfold member. now rewrite lookup_insert_ne. Qed.

Lemma classify_insert_cleaned (originalData cleanedData : list Row)
    (i : nat) (row : Row) (key : string) (v : JsValue)
    (i' : nat) (col' : ColumnProfile) :
  cleanedData !! i = Some row ->
  i' <> i \/ name col' <> key ->
  classify originalData (<[i := <[key := v]> row]> cleanedData) i' col'
  = classify originalData cleanedData i' col'.
Proof.
  intros Hi Hd. destruct (decide (i' = i)) as [->|Hne].
  - destruct Hd as [Hd|Hd]; [congruence|].
    assert (Hlt : i < length cleanedData) by (eapply lookup_lt_Some; eauto).
    rewrite (classify_present _ _ _ (<[key := v]> row)), (classify_present _ _ _ row);
      [| assumption | now apply list_lookup_insert_eq].
    unfold isChanged, newVal. rewrite member_insert_ne; [reflexivity | congruence].
  - unfold classify. rewrite !isRemoved_Some.
    rewrite list_lookup_insert_ne; [reflexivity | congruence].
Qed.

Lemma classify_insert_original (originalData cleanedData : list Row)
    (i : nat) (orow : Row) (key : string) (v : JsValue)
    (i' : nat) (col' : ColumnProfile) :
  originalData !! i = Some orow ->
  i' <> i \/ name col' <> key ->
  classify (<[i := <[key := v]> orow]> originalData) cleanedData i' col'
  = classify originalData cleanedData i' col'.
Proof.
  intros Hi Hd. unfold classify.
  destruct (isRemoved (Some cleanedData) i'); [reflexivity|].
  destruct (cleanedData !! i') as [row|]; [|reflexivity].
  assert (Hlt : i < length originalData) by (eapply lookup_lt_Some; eauto).
  unfold isChanged, originalVal. destruct (decide (i' = i)) as [->|Hne].
  - destruct Hd as [Hd|Hd]; [congruence|].
    rewrite list_lookup_insert_eq, Hi by assumption.
    rewrite member_insert_ne; [reflexivity | congruence].
  - rewrite list_lookup_insert_ne; [reflexivity | congruence].
Qed.

(** C5, as claimed, fails: the original price is null, the cleaned price
    is the empty string.  Both print as the empty text, so after coercion
    of null to '' they are textually equal, yet the cell is highlighted
    as changed: the comparison is done on the uncoerced values. *)
Lemma null_against_empty_string_is_changed :
  nullPrice !! 0 = Some (mkRow 7 JsNull) /\
  emptyPrice !! 0 = Some (mkRow 7 (JsString "")) /\
  display (member (mkRow 7 JsNull) (name priceCol))
    = display (member (mkRow 7 (JsString "")) (name priceCol)) /\
  classify nullPrice emptyPrice 0 priceCol = changed /\
  highlight (rightCell nullPrice 0 (mkRow 7 (JsString "")) priceCol) = emerald.
Proof. repeat split; vm_compute; reflexivity. Qed.

(** C5, amended: for a row index [i] inside the cleaned preview and a
    column [col], the cell is changed if and only if the original preview
    has a row [i] and [String(original[i][col])] differs from
    [String(transformed[i][col])], with no coercion of null or undefined
    (they read "null" and "undefined"); otherwise it is unchanged.
    Comparing a preview with itself gives unchanged everywhere, and
    writing one cell, in either preview, leaves the classification of
    every other cell as it was. *)
Theorem cell_changed_iff_raw_strings_differ (originalData cleanedData : list Row)
    (i : nat) (row : Row) (col : ColumnProfile) :
  cleanedData !! i = Some row ->
  (classify originalData cleanedData i col = changed <->
     exists orow, originalData !! i = Some orow /\
       jsToString (member orow (name col))
       <> jsToString (member row (name col))) /\
  (classify originalData cleanedData i col <> changed ->
     classify originalData cleanedData i col = unchanged) /\
  (forall c, classify cleanedData cleanedData i c = unchanged) /\
  (forall key v i' col', i' <> i \/ name col' <> key ->
     classify originalData (<[i := <[key := v]> row]> cleanedData) i' col'
     = classify originalData cleanedData i' col') /\
  (forall orow key v i' col', originalData !! i = Some orow ->
     i' <> i \/ name col' <> key ->
     classify (<[i := <[key := v]> orow]> originalData) cleanedData i' col'
     = classify originalData cleanedData i' col').
Proof.
  intros Hi. repeat split.
  - rewrite (classify_present _ _ _ _ _ Hi). intros H. apply isChanged_true.
    destruct (isChanged originalData i row col); [reflexivity | discriminate H].
  - intros H. apply isChanged_true in H.
    now rewrite (classify_present _ _ _ _ _ Hi), H.
  - rewrite (classify_present _ _ _ _ _ Hi).
    destruct (isChanged originalData i row col); [intros H; now destruct H | reflexivity].
  - intros c. rewrite (classify_present _ _ _ _ _ Hi).
    unfold isChanged, originalVal, newVal. rewrite Hi.
    now rewrite String.eqb_refl.
  - intros key v i' col' Hd. now apply classify_insert_cleaned.
  - intros orow key v i' col' Ho Hd. now apply classify_insert_original.
Qed.

Lemma cell_changed_iff_raw_strings_differ_witness :
  cleanedPreview !! 1 = Some (mkRow 3 (JsString "12")) /\
  classify salesPreview cleanedPreview 1 idCol = changed.
Proof.
  split; [reflexivity|].
  apply (proj1 (cell_changed_iff_raw_strings_differ salesPreview cleanedPreview
                  1 (mkRow 3 (JsString "12")) idCol eq_refl)).
  exists (mkRow 2 JsNull). split; [reflexivity|].
  vm_compute. discriminate.
Defined.

(** C6: when the cleaned preview is there and is shorter than the
    original one, every cell of an original row at an index at or past
    the cleaned preview's length is struck through in the left pane, in
    every column, and classifies as removedInTransformed. *)
Theorem rows_past_cleaned_are_removed (originalData cleanedData : list Row)
    (cols : list ColumnProfile) (i k : nat) (col : ColumnProfile) :
  length cleanedData < length originalData ->
  length cleanedData <= i ->
  i < length originalData ->
  cols !! k = Some col ->
  classify originalData cleanedData i col = removedInTransformed /\
  exists row, originalData !! i = Some row /\
    leftPane originalData (Some cleanedData) cols !! i ≫= (fun r => r !! k)
    = Some {| highlight := struck; text := display (member row (name col)) |}.
Proof.
  intros _ Hge Hlt Hk. split.
  - unfold classify. now rewrite isRemoved_ge.
  - destruct (lookup_lt_is_Some_2 originalData i Hlt) as [row Hrow].
    exists row. split; [exact Hrow|].
    rewrite (leftPane_cell _ _ _ _ _ _ _ Hrow Hk).
    unfold leftCell. now rewrite isRemoved_ge.
Qed.

Lemma rows_past_cleaned_are_removed_witness :
  classify salesPreview cleanedPreview 2 priceCol = removedInTransformed /\
  exists row, salesPreview !! 2 = Some row /\
    leftPane salesPreview (Some cleanedPreview) [idCol; priceCol] !! 2
      ≫= (fun r => r !! 1)
    = Some {| highlight := struck; text := display (member row (name priceCol)) |}.
Proof.
  apply (rows_past_cleaned_are_removed salesPreview cleanedPreview
           [idCol; priceCol] 2 1 priceCol); simpl; first [lia | reflexivity].
Defined.

(** ** Further properties of the hook *)

Lemma step_coherent (w w' : World) (e : Event) :
  coherent (ctrl w) -> step w e = Some w' -> coherent (ctrl w').
Proof.
  destruct w as [[j dp ps ip er up ex cd] fl]. unfold coherent. simpl.
  intros [Hj Hc] Hs.
  destruct e as [file|prompt| | |p|k r]; simpl in Hs.
  - injection Hs as <-. split; assumption.
  - injection Hs as <-. unfold handleTransformRequest_call. simpl.
    destruct j as [j|]; [destruct (nonEmpty j)|]; split; assumption.
  - injection Hs as <-. unfold handleExecute_call. simpl.
    destruct j as [j|]; [destruct (nonEmpty j)|]; split; assumption.
  - injection Hs as <-. split; reflexivity.
  - destruct (existsb isUpload fl); [|discriminate].
    injection Hs as <-. split; assumption.
  - destruct (fl !! k) as [q|]; [|discriminate].
    destruct (answers q r); [|discriminate]. injection Hs as <-.
    destruct r as [[b|d]|[b|d]|[b|d]]; simpl; try (split; assumption);
      try (split; reflexivity).
    destruct (status b); split; assumption.
Qed.

(** X1: At every point of every run, whatever was called and whatever
    arrived in whatever order, the job id is the stored profile's job id
    and the working preview is the stored profile's preview; without a
    profile there is no job id and the working preview is empty. *)
Theorem job_profile_preview_agree (evs : list Event) (w : World) :
  run evs start = Some w ->
  jobId (ctrl w) = profile_job_id <$> datasetProfile (ctrl w) /\
  currentData (ctrl w)
    = from_option profile_preview [] (datasetProfile (ctrl w)) /\
  (jobId (ctrl w) = None <-> datasetProfile (ctrl w) = None).
Proof.
  assert (G : forall evs w0 w1, coherent (ctrl w0) -> run evs w0 = Some w1 ->
                coherent (ctrl w1)).
  { clear. induction evs as [|e evs IH]; intros w0 w1 H0 Hr; simpl in Hr.
    - now injection Hr as <-.
    - destruct (step w0 e) as [w'|] eqn:E; [|discriminate].
      eapply IH; [eapply step_coherent; eassumption | exact Hr]. }
  intros Hr. destruct (G evs start w) as [Hj Hc]; [split; reflexivity | exact Hr |].
  repeat split; try assumption.
  - intros Hn. rewrite Hj in Hn. now destruct (datasetProfile (ctrl w)).
  - intros Hn. now rewrite Hj, Hn.
Qed.

Lemma job_profile_preview_agree_witness :
  jobId resetMidFlight = profile_job_id <$> datasetProfile resetMidFlight /\
  currentData resetMidFlight
    = from_option profile_preview [] (datasetProfile resetMidFlight) /\
  (jobId resetMidFlight = None <-> datasetProfile resetMidFlight = None).
Proof.
  apply (job_profile_preview_agree resetWhileExecuting
           {| ctrl := resetMidFlight; inflight := [executePlan "job-1"] |}).
  reflexivity.
Defined.

Lemma step_namesJob (w w' : World) (e : Event) :
  Forall namesJob (inflight w) -> step w e = Some w' ->
  Forall namesJob (inflight w').
Proof.
  intros Hf Hs. destruct w as [s fl]. simpl in *.
  destruct e as [file|prompt| | |p|k r]; simpl in Hs.
  - injection Hs as <-. simpl. apply Forall_app. split; [assumption|].
    repeat constructor.
  - injection Hs as <-. unfold handleTransformRequest_call.
    destruct (jobId s) as [j|]; [destruct (nonEmpty j) eqn:E|]; simpl;
      rewrite ?app_nil_r; try assumption.
    apply Forall_app. split; [assumption|]. repeat constructor. exact E.
  - injection Hs as <-. unfold handleExecute_call.
    destruct (jobId s) as [j|]; [destruct (nonEmpty j) eqn:E|]; simpl;
      rewrite ?app_nil_r; try assumption.
    apply Forall_app. split; [assumption|]. repeat constructor. exact E.
  - injection Hs as <-. assumption.
  - destruct (existsb isUpload fl); [|discriminate].
    injection Hs as <-. assumption.
  - destruct (fl !! k) as [q|]; [|discriminate].
    destruct (answers q r); [|discriminate]. injection Hs as <-. simpl.
    now apply Forall_delete.
Qed.

(** X2: The hook never sends a plan or an execute request with an empty job
    id: at every point of every run, each such request in flight names a
    non-empty job id, even if the server answered an upload with an
    empty one. *)
Theorem requests_name_a_job (evs : list Event) (w : World) :
  run evs start = Some w -> Forall namesJob (inflight w).
Proof.
  assert (G : forall evs w0 w1, Forall namesJob (inflight w0) ->
                run evs w0 = Some w1 -> Forall namesJob (inflight w1)).
  { clear. induction evs as [|e evs IH]; intros w0 w1 H0 Hr; simpl in Hr.
    - now injection Hr as <-.
    - destruct (step w0 e) as [w'|] eqn:E; [|discriminate].
      eapply IH; [eapply step_namesJob; eassumption | exact Hr]. }
  intros Hr. exact (G evs start w (Forall_nil_2 _) Hr).
Qed.

Lemma requests_name_a_job_witness :
  Forall namesJob [executePlan "job-1"].
Proof.
  apply (requests_name_a_job resetWhileExecuting
           {| ctrl := resetMidFlight; inflight := [executePlan "job-1"] |}).
  reflexivity.
Defined.

Lemma progress_last (ps : list Z) (s : State) :
  uploadProgress (foldl (fun acc p => onProgress p acc) s ps)
  = default (uploadProgress s) (last ps).
Proof.
  revert s. induction ps as [|p ps IH]; intros s; [reflexivity|].
  simpl foldl. rewrite IH, last_cons. now destruct (last ps).
Qed.

(** X3: After an upload run the progress shown is the last percentage that
    was reported, and 0 when none was: neither success nor failure of
    the upload writes it, so a resolved upload is not forced to 100. *)
Theorem upload_progress_is_last_report (s : State) (file : File)
    (ps : list Z) (o : Outcome DatasetProfile) :
  uploadProgress (handleUpload file ps o s) = default 0%Z (last ps).
Proof.
  unfold handleUpload.
  pose proof (progress_last ps (handleUpload_call file s).1) as H.
  simpl in H. destruct o; simpl; exact H.
Qed.

(** X4: Only the most recent error is shown.  After an uninterrupted upload
    run, from any state, and after a plan or execute run with an active
    job, the error is a function of how the call settled and of nothing
    that was shown before: none when the call resolved (for execute: with
    a status other than failed), the new message otherwise.  Without an
    active job a plan or execute run leaves the error as it was. *)
Theorem error_is_that_of_last_attempt (s : State) (file : File)
    (ps : list Z) (prompt : string) (uo : Outcome DatasetProfile)
    (po : Outcome PlanResponse) (eo : Outcome ExecutionResult) :
  error (handleUpload file ps uo s)
  = match uo with
    | Resolved _ => None
    | Rejected d => Some (orElse d "Upload failed")
    end /\
  (truthy (jobId s) = true ->
   error (handleTransformRequest prompt po s)
   = match po with
     | Resolved _ => None
     | Rejected d => Some (orElse d "Planning failed")
     end /\
   error (handleExecute eo s)
   = match eo with
     | Resolved result =>
         match status result with
         | failed => Some (orElse (result_error result) "Execution failed")
         | _ => None
         end
     | Rejected d => Some (orElse d "Execution failed")
     end) /\
  (truthy (jobId s) = false ->
   error (handleTransformRequest prompt po s) = error s /\
   error (handleExecute eo s) = error s).
Proof.
  split; [|split].
  - unfold handleUpload.
    pose proof (progress_frame ps (handleUpload_call file s).1) as F.
    simpl in F. destruct F as (_ & _ & _ & _ & Fe & _).
    destruct uo; simpl; [exact Fe | reflexivity].
  - intros Hj. apply truthy_Some in Hj as (j & Hj & Hne). split.
    + unfold handleTransformRequest, handleTransformRequest_call.
      rewrite Hj, Hne. now destruct po.
    + unfold handleExecute, handleExecute_call. rewrite Hj, Hne.
      destruct eo as [result|d]; [|reflexivity].
      simpl. now destruct (status result).
  - unfold truthy, handleTransformRequest, handleTransformRequest_call,
      handleExecute, handleExecute_call.
    destruct (jobId s) as [j|]; [intros ->|]; split; reflexivity.
Qed.

Lemma error_is_that_of_last_attempt_witness :
  error (handleUpload salesFile [] (Resolved salesProfile)
           (setError (Some "Upload failed") initial)) = None /\
  error (handleTransformRequest "drop nulls" (Resolved salesPlan)
           (setError (Some "Planning failed") planProposed)) = None /\
  error (handleExecute (Resolved salesResult)
           (setError (Some "Planning failed") planProposed)) = None.
Proof.
  split.
  - exact (proj1 (error_is_that_of_last_attempt
                    (setError (Some "Upload failed") initial) salesFile []
                    "drop nulls" (Resolved salesProfile) (Resolved salesPlan)
                    (Resolved salesResult))).
  - exact (proj1 (proj2 (error_is_that_of_last_attempt
                           (setError (Some "Planning failed") planProposed)
                           salesFile [] "drop nulls" (Resolved salesProfile)
                           (Resolved salesPlan) (Resolved salesResult)))
             eq_refl).
Defined.

Lemma step_keeps_result (w w' : World) (e : Event) :
  is_Some (executionResult (ctrl w)) -> e <> callReset ->
  step w e = Some w' -> is_Some (executionResult (ctrl w')).
Proof.
  destruct w as [[j dp ps ip er up ex cd] fl]. simpl. intros Hx Hne Hs.
  destruct e as [file|prompt| | |p|k r]; simpl in Hs.
  - now injection Hs as <-.
  - injection Hs as <-. unfold handleTransformRequest_call. simpl.
    destruct j as [j|]; [destruct (nonEmpty j)|]; exact Hx.
  - injection Hs as <-. unfold handleExecute_call. simpl.
    destruct j as [j|]; [destruct (nonEmpty j)|]; exact Hx.
  - now destruct Hne.
  - destruct (existsb isUpload fl); [|discriminate]. now injection Hs as <-.
  - destruct (fl !! k) as [q|]; [|discriminate].
    destruct (answers q r); [|discriminate]. injection Hs as <-.
    destruct r as [[b|d]|[b|d]|[b|d]]; simpl; try exact Hx.
    destruct (status b); simpl; eauto.
Qed.

(** X5: Once an execution result is stored, of whatever status, only
    [reset] removes it: along every run without a reset a result stays
    stored, and so the confirm action is not offered again, not even
    after a new plan or a new upload. *)
Theorem result_stays_until_reset (evs : list Event) (w w' : World) :
  is_Some (executionResult (ctrl w)) ->
  Forall (fun e => e <> callReset) evs ->
  run evs w = Some w' ->
  is_Some (executionResult (ctrl w')) /\ confirmOffered (ctrl w') = false.
Proof.
  intros Hx Hnr Hr.
  assert (H : is_Some (executionResult (ctrl w'))).
  { revert w Hx Hr. induction Hnr as [|e evs He _ IH]; intros w Hx Hr;
      simpl in Hr.
    - now injection Hr as <-.
    - destruct (step w e) as [w1|] eqn:E; [|discriminate].
      eapply IH; [eapply step_keeps_result; eassumption | exact Hr]. }
  split; [exact H|]. unfold confirmOffered.
  rewrite (bool_decide_eq_true_2 _ H). simpl.
  now rewrite andb_false_r.
Qed.

Lemma result_stays_until_reset_witness :
  is_Some (executionResult
             (handleUpload salesFile [] (Resolved salesProfile)
                (handleExecute (Resolved failedResult) planProposed))) /\
  confirmOffered
    (handleUpload salesFile [] (Resolved salesProfile)
       (handleExecute (Resolved failedResult) planProposed)) = false.
Proof.
  apply (result_stays_until_reset
           [callUpload salesFile;
            settled 0 (uploadSettled (Resolved salesProfile))]
           {| ctrl := handleExecute (Resolved failedResult) planProposed;
              inflight := [] |}
           {| ctrl := handleUpload salesFile [] (Resolved salesProfile)
                        (handleExecute (Resolved failedResult) planProposed);
              inflight := [] |}).
  - simpl. eauto.
  - repeat constructor; discriminate.
  - reflexivity.
Defined.

(** X6: A new plan replaces the proposed one, it is not appended to it, and
    the steps keep the order of the response; receiving the same plan a
    second time, for whatever prompt, leaves the hook as it was after the
    first. *)
Theorem plan_replaces_and_is_idempotent (s : State) (prompt prompt' : string)
    (plan plan' : PlanResponse) :
  truthy (jobId s) = true ->
  proposedSteps
    (handleTransformRequest prompt' (Resolved plan')
       (handleTransformRequest prompt (Resolved plan) s))
  = steps plan' /\
  handleTransformRequest prompt' (Resolved plan)
    (handleTransformRequest prompt (Resolved plan) s)
  = handleTransformRequest prompt (Resolved plan) s.
Proof.
  intros Hj. apply truthy_Some in Hj as (j & Hj & Hne).
  destruct s as [j0 dp ps ip er up ex cd]. simpl in Hj. subst j0.
  unfold handleTransformRequest, handleTransformRequest_call. simpl.
  rewrite Hne. simpl. rewrite Hne. split; reflexivity.
Qed.

Lemma plan_replaces_and_is_idempotent_witness :
  proposedSteps
    (handleTransformRequest "drop duplicates" (Resolved dedupPlan)
       (handleTransformRequest "drop nulls" (Resolved salesPlan) profiled))
  = [dropDuplicates] /\
  handleTransformRequest "drop duplicates" (Resolved salesPlan)
    (handleTransformRequest "drop nulls" (Resolved salesPlan) profiled)
  = handleTransformRequest "drop nulls" (Resolved salesPlan) profiled.
Proof.
  apply (plan_replaces_and_is_idempotent profiled "drop nulls"
           "drop duplicates" salesPlan dedupPlan).
  reflexivity.
Defined.

(** ** The progress percentage *)

(** X7: With a known, non-zero total below [byteLimit] and a byte count
    between 0 and the total, the percentage lies between 0 and 100, is 0
    at the start and 100 at the end, and never decreases while the byte
    count grows.  It shows 100 exactly from 99.5 percent of the bytes on. *)
Theorem percent_within_bounds (loaded loaded' total : Z) :
  (0 < total)%Z -> (total < byteLimit)%Z ->
  (0 <= loaded)%Z -> (loaded <= loaded')%Z -> (loaded' <= total)%Z ->
  (0 <= percentCompleted loaded (Some total) <= 100)%Z /\
  (percentCompleted loaded (Some total)
   <= percentCompleted loaded' (Some total))%Z /\
  percentCompleted 0 (Some total) = 0%Z /\
  percentCompleted total (Some total) = 100%Z /\
  (percentCompleted loaded (Some total) = 100%Z <->
   (199 * total <= 200 * loaded)%Z).
Proof.
  intros Ht _ Hl Hll Hlt. unfold percentCompleted.
  assert (Hz : (total =? 0)%Z = false) by (apply Z.eqb_neq; lia).
  rewrite Hz.
  assert (Hub : forall l, (0 <= l <= total)%Z ->
            (0 <= (2 * (l * 100) + total) / (2 * total) <= 100)%Z).
  { intros l Hl'. split.
    - apply Z.div_pos; lia.
    - apply Z.lt_succ_r. apply Z.div_lt_upper_bound; lia. }
  split; [apply Hub; lia|].
  split; [apply Z.div_le_mono; lia|].
  split; [apply Z.div_small; lia|].
  split.
  - replace (2 * (total * 100) + total)%Z with (total + 100 * (2 * total))%Z by lia.
    rewrite Z.div_add by lia. rewrite Z.div_small by lia. reflexivity.
  - split.
    + intros H.
      assert (100 <= (2 * (loaded * 100) + total) / (2 * total))%Z by lia.
      destruct (Z_le_gt_dec (199 * total) (200 * loaded)) as [|Hgt]; [assumption|].
      exfalso.
      assert ((2 * (loaded * 100) + total) / (2 * total) < 100)%Z
        by (apply Z.div_lt_upper_bound; lia).
      lia.
    + intros H. apply Z.le_antisymm; [apply Hub; lia|].
      apply Z.div_le_lower_bound; lia.
Qed.

Lemma percent_within_bounds_witness :
  (0 <= percentCompleted 1024 (Some 2048%Z) <= 100)%Z /\
  (percentCompleted 1024 (Some 2048%Z)
   <= percentCompleted 2040 (Some 2048%Z))%Z /\
  percentCompleted 0 (Some 2048%Z) = 0%Z /\
  percentCompleted 2048 (Some 2048%Z) = 100%Z /\
  (percentCompleted 1024 (Some 2048%Z) = 100%Z <->
   (199 * 2048 <= 200 * 1024)%Z).
Proof.
  apply (percent_within_bounds 1024 2040 2048);
    first [reflexivity | lia].
Defined.

(** X8: When the total is not known, or is reported as 0, the divisor is 1
    and, for a byte count from 0 to below [byteLimit], the percentage is
    a hundred times the byte count: it passes 100 with the second byte. *)
Theorem percent_without_total (loaded : Z) (total : option Z) :
  total = None \/ total = Some 0%Z ->
  (0 <= loaded < byteLimit)%Z ->
  percentCompleted loaded total = (100 * loaded)%Z /\
  ((1 < loaded)%Z -> (100 < percentCompleted loaded total)%Z).
Proof.
  intros H _.
  assert (E : percentCompleted loaded total = (100 * loaded)%Z).
  { unfold percentCompleted. destruct H as [-> | ->]; simpl;
      (replace (2 * (loaded * 100) + 1)%Z with (1 + (100 * loaded) * 2)%Z by lia);
      rewrite Z.div_add by lia; reflexivity. }
  split; [exact E | rewrite E; lia].
Qed.

Lemma percent_without_total_witness :
  percentCompleted 2048 None = (100 * 2048)%Z /\
  ((1 < 2048)%Z -> (100 < percentCompleted 2048 None)%Z).
Proof.
  apply (percent_without_total 2048 None).
  - left. reflexivity.
  - split; [lia | reflexivity].
Defined.

(** ** Further properties of the diff viewer *)

(** X9: The left pane has one row per original row and the right pane one
    row per cleaned row, each with one cell per column: the panes are
    not padded to a common height, and without a cleaned preview there is
    no right pane. *)
Theorem panes_follow_their_own_preview (originalData : list Row)
    (cleanedData : option (list Row)) (cols : list ColumnProfile) :
  length (leftPane originalData cleanedData cols) = length originalData /\
  Forall (fun r => length r = length cols)
    (leftPane originalData cleanedData cols) /\
  match cleanedData with
  | Some cd =>
      exists t, rightPane originalData cleanedData cols = Some t /\
        length t = length cd /\
        Forall (fun r => length r = length cols) t
  | None => rightPane originalData cleanedData cols = None
  end.
Proof.
  assert (R : forall (f : nat -> Row -> ColumnProfile -> Cell) (l : list Row),
            Forall (fun r => length r = length cols)
              (imap (fun i row => f i row <$> cols) l)).
  { intros f l. apply Forall_lookup. intros i r Hr.
    rewrite list_lookup_imap in Hr.
    destruct (l !! i) as [row|]; [|discriminate].
    injection Hr as <-. apply length_fmap. }
  split; [apply length_imap|]. split; [apply R|].
  destruct cleanedData as [cd|]; [|reflexivity].
  eexists. split; [reflexivity|]. split; [apply length_imap | apply R].
Qed.

(** X10: A cleaned row with no original row at its index is never
    highlighted, whatever it holds: rows the clean-up added beyond the
    original preview's length show as plain, unchanged cells. *)
Theorem rows_past_original_are_plain (originalData cleanedData : list Row)
    (i : nat) (row : Row) (col : ColumnProfile) :
  length originalData <= i ->
  cleanedData !! i = Some row ->
  isChanged originalData i row col = false /\
  classify originalData cleanedData i col = unchanged /\
  rightCell originalData i row col
  = {| highlight := plain; text := display (member row (name col)) |}.
Proof.
  intros Hge Hi.
  assert (E : isChanged originalData i row col = false).
  { unfold isChanged. now rewrite (lookup_ge_None_2 _ _ Hge). }
  split; [exact E|]. split.
  - now rewrite (classify_present _ _ _ _ _ Hi), E.
  - unfold rightCell. now rewrite E.
Qed.

Lemma rows_past_original_are_plain_witness :
  isChanged emptyPrice 1 (mkRow 3 (JsString "12")) priceCol = false /\
  classify emptyPrice cleanedPreview 1 priceCol = unchanged /\
  rightCell emptyPrice 1 (mkRow 3 (JsString "12")) priceCol
  = {| highlight := plain;
       text := display (member (mkRow 3 (JsString "12")) (name priceCol)) |}.
Proof.
  apply (rows_past_original_are_plain emptyPrice cleanedPreview 1
           (mkRow 3 (JsString "12")) priceCol).
  - simpl. lia.
  - reflexivity.
Defined.

(** X11: Without a cleaned preview nothing is struck through and there is no
    right pane; with a cleaned preview that is there but empty, every
    cell of every original row is struck through. *)
Theorem absent_and_empty_cleaned_preview (originalData : list Row)
    (cols : list ColumnProfile) (i k : nat) (row : Row) (col : ColumnProfile) :
  originalData !! i = Some row ->
  cols !! k = Some col ->
  rightPane originalData None cols = None /\
  leftPane originalData None cols !! i ≫= (fun r => r !! k)
  = Some {| highlight := plain; text := display (member row (name col)) |} /\
  rightPane originalData (Some []) cols = Some [] /\
  leftPane originalData (Some []) cols !! i ≫= (fun r => r !! k)
  = Some {| highlight := struck; text := display (member row (name col)) |}.
Proof.
  intros Hi Hk. split; [reflexivity|].
  rewrite !(leftPane_cell _ _ _ _ _ _ _ Hi Hk).
  repeat split.
Qed.

Lemma absent_and_empty_cleaned_preview_witness :
  rightPane salesPreview None [idCol; priceCol] = None /\
  leftPane salesPreview None [idCol; priceCol] !! 1 ≫= (fun r => r !! 1)
  = Some {| highlight := plain;
            text := display (member (mkRow 2 JsNull) (name priceCol)) |} /\
  rightPane salesPreview (Some []) [idCol; priceCol] = Some [] /\
  leftPane salesPreview (Some []) [idCol; priceCol] !! 1 ≫= (fun r => r !! 1)
  = Some {| highlight := struck;
            text := display (member (mkRow 2 JsNull) (name priceCol)) |}.
Proof.
  apply (absent_and_empty_cleaned_preview salesPreview [idCol; priceCol]
           1 1 (mkRow 2 JsNull) priceCol); reflexivity.
Defined.

(** X12: Where both values are neither null nor undefined, the highlight
    agrees with what is printed: the cell is highlighted exactly when the
    two panes show different text.  The comparison is on text, so a
    number that is a safe integer and the string of its digits count as
    the same value. *)
Theorem highlight_agrees_with_text_on_values (originalData : list Row)
    (cleanedData : option (list Row)) (i : nat) (orow row : Row)
    (col : ColumnProfile) :
  originalData !! i = Some orow ->
  member orow (name col) <> JsNull ->
  member orow (name col) <> JsUndefined ->
  member row (name col) <> JsNull ->
  member row (name col) <> JsUndefined ->
  (isChanged originalData i row col = true <->
   text (leftCell cleanedData i orow col)
   <> text (rightCell originalData i row col)) /\
  (forall n, safeInteger n ->
     member orow (name col) = JsNumber n ->
     member row (name col) = JsString (pretty n) ->
     isChanged originalData i row col = false).
Proof.
  intros Hi Ho1 Ho2 Hr1 Hr2. split.
  - rewrite isChanged_true. unfold leftCell, rightCell, newVal, display. simpl.
    assert (Eo : nullish (member orow (name col)) (JsString "")
                 = member orow (name col))
      by (destruct (member orow (name col)) eqn:E; simpl; congruence).
    assert (Er : nullish (member row (name col)) (JsString "")
                 = member row (name col))
      by (destruct (member row (name col)) eqn:E; simpl; congruence).
    rewrite Eo, Er. split.
    + intros (orow' & Ho & H). rewrite Hi in Ho. injection Ho as <-. exact H.
    + intros H. exists orow. split; [exact Hi | exact H].
  - intros n _ Hn Hs. unfold isChanged, originalVal, newVal.
    rewrite Hi, Hn, Hs. simpl. now rewrite String.eqb_refl.
Qed.

Lemma highlight_agrees_with_text_on_values_witness :
  (isChanged salesPreview 0 textIdRow idCol = true <->
   text (leftCell (Some cleanedPreview) 0 (mkRow 1 (JsString "9.50")) idCol)
   <> text (rightCell salesPreview 0 textIdRow idCol)) /\
  safeInteger 1 /\
  member (mkRow 1 (JsString "9.50")) (name idCol) = JsNumber 1 /\
  member textIdRow (name idCol) = JsString (pretty 1%Z) /\
  isChanged salesPreview 0 textIdRow idCol = false.
Proof.
  assert (S1 : safeInteger 1) by (unfold safeInteger; lia).
  assert (M1 : member (mkRow 1 (JsString "9.50")) (name idCol) = JsNumber 1)
    by (vm_compute; reflexivity).
  assert (M2 : member textIdRow (name idCol) = JsString (pretty 1%Z))
    by (vm_compute; reflexivity).
  assert (T : (isChanged salesPreview 0 textIdRow idCol = true <->
               text (leftCell (Some cleanedPreview) 0
                       (mkRow 1 (JsString "9.50")) idCol)
               <> text (rightCell salesPreview 0 textIdRow idCol)) /\
              (forall n, safeInteger n ->
                 member (mkRow 1 (JsString "9.50")) (name idCol) = JsNumber n ->
                 member textIdRow (name idCol) = JsString (pretty n) ->
                 isChanged salesPreview 0 textIdRow idCol = false)).
  { apply (highlight_agrees_with_text_on_values salesPreview
             (Some cleanedPreview) 0 (mkRow 1 (JsString "9.50"))
             textIdRow idCol);
      first [reflexivity | vm_compute; discriminate]. }
  destruct T as [T1 T2].
  split; [exact T1|]. split; [exact S1|]. split; [exact M1|].
  split; [exact M2|]. exact (T2 1%Z S1 M1 M2).
Defined.

(** ** The App: requests through the interface, and the transcript *)

Section AppFacts.

Variable trim : string -> string.
Variable stringify : Row -> string.

Lemma appStep_serialized (a a' : AppState) (e : UiEvent) :
  serialized (hook a) -> idIssued e ->
  appStep trim stringify a e = Some a' -> serialized (hook a').
Proof.
  destruct a as [[[j dp ps ip er up ex cd] fl] h].
  unfold serialized, coherent. simpl.
  intros (Hlen & Hip & (Hj & Hc) & Hne & Hup) Hid Hs.
  assert (Hidle : ip = false -> fl = []).
  { intros ->. destruct fl; [reflexivity|].
    assert (false = true) by (apply Hip; discriminate). discriminate. }
  destruct e as [files|input| | |p|k r]; simpl in Hs.
  - (* dropFiles *)
    unfold uploaderShown, isUploading in Hs. simpl in Hs.
    destruct j as [j|].
    { simpl in Hs. rewrite (Hne j eq_refl) in Hs. discriminate Hs. }
    destruct dp as [p|]; [discriminate Hj|].
    destruct ip; simpl in Hs; [discriminate Hs|].
    rewrite (Hidle eq_refl) in *.
    destruct files as [|file files]; simpl in Hs; injection Hs as <-; simpl.
    + repeat split; auto; try done.
    + repeat split; auto; try done.
  - (* submitChat *)
    unfold chatShown, handleSubmit in Hs. simpl in Hs.
    destruct j as [j|]; simpl in Hs; [|discriminate Hs].
    rewrite (Hne j eq_refl) in Hs.
    destruct (nonEmpty (trim input)); simpl in Hs;
      [destruct ip; simpl in Hs|]; try (injection Hs as <-; simpl; tauto).
    rewrite (Hidle eq_refl) in *.
    unfold handleTransformRequest_call in Hs. simpl in Hs.
    rewrite (Hne j eq_refl) in Hs. injection Hs as <-. simpl.
    repeat split; auto; try done.
  - (* clickConfirm *)
    unfold confirmOffered in Hs. simpl in Hs.
    destruct ((0 <? length ps)%nat
              && negb (bool_decide (is_Some ex))); simpl in Hs;
      [|discriminate Hs].
    destruct ip; simpl in Hs; [discriminate Hs|].
    rewrite (Hidle eq_refl) in *.
    unfold handleExecute_call in Hs. simpl in Hs.
    destruct j as [j|]; [rewrite (Hne j eq_refl) in Hs|];
      injection Hs as <-; simpl; repeat split; auto; try done.
  - (* clickReset *)
    unfold resetShown in Hs. simpl in Hs.
    destruct (truthy j); [|discriminate Hs].
    injection Hs as <-. simpl. repeat split; auto; try apply Hip; discriminate.
  - (* uploadProgressed *)
    destruct (existsb isUpload fl); [|discriminate Hs].
    injection Hs as <-. simpl. tauto.
  - (* responded *)
    destruct (fl !! k) as [q|] eqn:Hk; [|discriminate Hs].
    destruct (answers q r); [|discriminate Hs]. injection Hs as <-. simpl.
    assert (Hfl : delete k fl = []).
    { destruct fl as [|q0 [|q1 fl]]; [discriminate Hk | | simpl in Hlen; lia].
      destruct k; [reflexivity | discriminate Hk]. }
    rewrite Hfl.
    destruct r as [[b|d]|[b|d]|[b|d]]; simpl in *;
      try destruct (status b); simpl;
      repeat split; auto; try done; try congruence.
Qed.

Lemma appRun_serialized (evs : list UiEvent) (a0 a1 : AppState) :
  serialized (hook a0) -> Forall idIssued evs ->
  appRun trim stringify evs a0 = Some a1 -> serialized (hook a1).
Proof.
  revert a0. induction evs as [|e evs IH]; intros a0 H0 Hid Hr; simpl in Hr.
  - now injection Hr as <-.
  - destruct (appStep trim stringify a0 e) as [a'|] eqn:E; [|discriminate].
    apply Forall_cons in Hid as [He Hid].
    eapply IH; [eapply appStep_serialized; eassumption | exact Hid | exact Hr].
Qed.

Lemma appStart_serialized : serialized (hook appStart).
Proof. unfold serialized, coherent. simpl. repeat split; auto; done. Qed.

(** X13: Through the interface requests are serialized.  As long as actions
    happen only where the App renders and enables them, and the server
    never answers an upload with an empty job id, at most one gateway
    request is in flight at any time and [isProcessing] is true exactly
    while one is. *)
Theorem interface_serializes_requests (evs : list UiEvent) (a : AppState) :
  Forall idIssued evs ->
  appRun trim stringify evs appStart = Some a ->
  (length (inflight (hook a)) <= 1)%nat /\
  (isProcessing (ctrl (hook a)) = true <-> inflight (hook a) <> []).
Proof.
  intros Hid Hr.
  destruct (appRun_serialized evs appStart a appStart_serialized Hid Hr)
    as (Hl & Hp & _).
  split; assumption.
Qed.

(** X14: Through the interface an upload starts only without a job, and
    nothing can set one while it is in flight: when an upload is
    rejected, the App has no job id, no profile and an empty working
    preview, shows the upload error and has nothing in flight. *)
Theorem interface_rejected_upload_leaves_no_job (evs : list UiEvent)
    (a a' : AppState) (k : nat) (d : option string) :
  Forall idIssued evs ->
  appRun trim stringify evs appStart = Some a ->
  appStep trim stringify a (responded k (uploadSettled (Rejected d))) = Some a' ->
  jobId (ctrl (hook a')) = None /\
  datasetProfile (ctrl (hook a')) = None /\
  currentData (ctrl (hook a')) = [] /\
  error (ctrl (hook a')) = Some (orElse d "Upload failed") /\
  isProcessing (ctrl (hook a')) = false /\
  inflight (hook a') = [].
Proof.
  intros Hid Hr Hs.
  destruct (appRun_serialized evs appStart a appStart_serialized Hid Hr)
    as (Hl & _ & (Hj & Hc) & _ & Hup).
  destruct a as [[[j dp ps ip er up ex cd] fl] h]. simpl in *.
  destruct (fl !! k) as [q|] eqn:Hk; [|discriminate Hs].
  destruct fl as [|q0 [|q1 fl]]; [discriminate Hk | | simpl in Hl; lia].
  destruct k; [|discriminate Hk]. injection Hk as ->.
  destruct q; simpl in Hs; try discriminate Hs. injection Hs as <-. simpl.
  rewrite (Hup eq_refl) in Hj. destruct dp; [discriminate Hj|].
  rewrite (Hup eq_refl). repeat split. exact Hc.
Qed.

Lemma appStep_history (a a' : AppState) (e : UiEvent) :
  appStep trim stringify a e = Some a' ->
  history a' = history a \/
  exists entry, history a' = (history a ++ [entry])%list.
Proof.
  destruct a as [w h]. intros Hs.
  destruct e as [files|input| | |p|k r]; simpl in Hs.
  - destruct (uploaderShown (ctrl w) && negb (isUploading (ctrl w)));
      [|discriminate Hs].
    destruct (handleDrop files); injection Hs as <-; now left.
  - destruct (chatShown (ctrl w)); [|discriminate Hs].
    destruct (handleSubmit trim (isProcessing (ctrl w)) input);
      injection Hs as <-; [right; eauto | now left].
  - destruct (confirmOffered (ctrl w)); [|discriminate Hs].
    injection Hs as <-. right; eauto.
  - destruct (resetShown (ctrl w)); [|discriminate Hs].
    injection Hs as <-. now left.
  - destruct (existsb isUpload (inflight w)); [|discriminate Hs].
    injection Hs as <-. now left.
  - destruct (inflight w !! k) as [q|]; [|discriminate Hs].
    destruct (answers q r); [|discriminate Hs]. injection Hs as <-. simpl.
    destruct r as [[b|d]|[b|d]|[b|d]]; simpl; try now left.
    + unfold planEffect. destruct (0 <? length (steps b))%nat;
        [right; eauto | now left].
    + unfold resultEffect. simpl.
      destruct (status b) eqn:E; simpl; rewrite ?E;
        first [now left | right; eauto].
Qed.

(** X16: The transcript is append-only.  Along every run of the App the
    earlier transcript is a prefix of the later one, every event adds at
    most one entry, and the greeting stays the first entry. *)
Theorem transcript_is_append_only (evs : list UiEvent) (a a' : AppState) :
  appRun trim stringify evs a = Some a' ->
  history a `prefix_of` history a' /\
  (length (history a') <= length (history a) + length evs)%nat /\
  (a = appStart -> head (history a') = Some greeting).
Proof.
  intros Hr.
  assert (G : history a `prefix_of` history a' /\
              (length (history a') <= length (history a) + length evs)%nat).
  { revert a Hr. induction evs as [|e evs IH]; intros a Hr; simpl in Hr.
    - injection Hr as <-. split; [reflexivity | lia].
    - destruct (appStep trim stringify a e) as [a1|] eqn:E; [|discriminate].
      destruct (IH a1 Hr) as [Hp Hl].
      destruct (appStep_history _ _ _ E) as [H | [entry H]]; rewrite H in *.
      + split; [exact Hp | simpl; lia].
      + split.
        * etransitivity; [apply prefix_app_r; reflexivity | exact Hp].
        * rewrite length_app in Hl. simpl in *. lia. }
  destruct G as [Hp Hl]. repeat split; try assumption.
  intros ->. destruct Hp as [k ->]. reflexivity.
Qed.

(** X17: A resolved plan call replaces the proposed steps by those of the
    response.  With at least one step the transcript gains one entry that
    lists them; with no step at all nothing is logged, the earlier plan
    is gone and no confirm action is offered. *)
Theorem plan_entry_only_for_steps (a : AppState) (k : nat)
    (j prompt : string) (plan : PlanResponse) :
  inflight (hook a) !! k = Some (generatePlan j prompt) ->
  exists a',
    appStep trim stringify a (responded k (planSettled (Resolved plan)))
      = Some a' /\
    proposedSteps (ctrl (hook a')) = steps plan /\
    (steps plan = [] ->
       history a' = history a /\ confirmOffered (ctrl (hook a')) = false) /\
    (steps plan <> [] ->
       history a'
       = (history a
          ++ [{| role := ai; content := planMessage stringify (steps plan) |}])%list).
Proof.
  intros Hk. destruct a as [[s fl] h]. simpl in *. rewrite Hk. simpl.
  eexists. split; [reflexivity|]. simpl. split; [reflexivity|].
  unfold planEffect, confirmOffered. simpl.
  destruct (steps plan) as [|st sts]; split; try done.
Qed.

(** X18: A resolved execute call stores its result and withdraws the confirm
    action.  The transcript gains an entry exactly for the statuses
    completed and failed; a result in any other status is stored
    silently, with no entry and the error left as it was. *)
Theorem result_entry_iff_completed_or_failed (a : AppState) (k : nat)
    (j : string) (result : ExecutionResult) :
  inflight (hook a) !! k = Some (executePlan j) ->
  exists a',
    appStep trim stringify a (responded k (executeSettled (Resolved result)))
      = Some a' /\
    executionResult (ctrl (hook a')) = Some result /\
    confirmOffered (ctrl (hook a')) = false /\
    (status result = completed ->
       history a'
       = (history a
          ++ [{| role := ai; content := completedMessage result |}])%list) /\
    (status result = failed ->
       length (history a') = S (length (history a)) /\
       forall msg, result_error result = Some msg ->
         history a'
         = (history a
            ++ [{| role := ai; content := "Execution Failed: " +:+ msg |}])%list) /\
    (status result <> completed -> status result <> failed ->
       history a' = history a /\
       error (ctrl (hook a')) = error (ctrl (hook a))).
Proof.
  intros Hk. destruct a as [[s fl] h]. simpl in *. rewrite Hk. simpl.
  eexists. split; [reflexivity|]. simpl.
  unfold confirmOffered, resultEffect.
  destruct (status result) eqn:E; simpl; rewrite ?E;
    repeat split; try done; try (now rewrite andb_false_r).
  - rewrite length_app. simpl. lia.
  - intros msg Hm. unfold failedMessage. now rewrite Hm.
Qed.

(** X19: The confirm action can be on offer while no job is active.
    Clicking it then logs "Confirmed. Execute plan." and does nothing
    else: no request is sent, the hook is unchanged and no error is
    shown. *)
Theorem confirm_without_job_only_logs (a : AppState) :
  confirmOffered (ctrl (hook a)) = true ->
  truthy (jobId (ctrl (hook a))) = false ->
  appStep trim stringify a clickConfirm
  = Some {| hook := hook a;
            history := history a
                       ++ [{| role := user;
                              content := "Confirmed. Execute plan." |}] |}.
Proof.
  intros Hc Hj. destruct a as [[s fl] h]. simpl in *. rewrite Hc.
  unfold handleExecute_call, truthy in *.
  destruct (jobId s) as [j|]; [rewrite Hj|]; simpl; unfold issue; simpl;
    now rewrite app_nil_r.
Qed.

End AppFacts.

Lemma reach_planning :
  appRun asciiTrim stringifyEmpty toPlanning appStart = Some planning.
Proof. vm_compute. reflexivity. Qed.

Lemma reach_executing :
  appRun asciiTrim stringifyEmpty uploadPlanConfirm appStart = Some executing.
Proof. vm_compute. reflexivity. Qed.

Lemma reach_planWithoutJob :
  appRun asciiTrim stringifyEmpty resetWhilePlanning appStart
  = Some planWithoutJob.
Proof. vm_compute. reflexivity. Qed.

Lemma interface_serializes_requests_witness :
  (length (inflight (hook executing)) <= 1)%nat /\
  (isProcessing (ctrl (hook executing)) = true <->
   inflight (hook executing) <> []).
Proof.
  apply (interface_serializes_requests asciiTrim stringifyEmpty
           uploadPlanConfirm executing).
  - repeat constructor.
  - exact reach_executing.
Defined.

Lemma interface_rejected_upload_leaves_no_job_witness :
  jobId (ctrl (hook uploadRejected)) = None /\
  datasetProfile (ctrl (hook uploadRejected)) = None /\
  currentData (ctrl (hook uploadRejected)) = [] /\
  error (ctrl (hook uploadRejected)) = Some (orElse None "Upload failed") /\
  isProcessing (ctrl (hook uploadRejected)) = false /\
  inflight (hook uploadRejected) = [].
Proof.
  apply (interface_rejected_upload_leaves_no_job asciiTrim stringifyEmpty
           [dropFiles [salesFile]] uploading uploadRejected 0 None).
  - repeat constructor.
  - reflexivity.
  - reflexivity.
Defined.

Lemma transcript_is_append_only_witness :
  history planning `prefix_of` history executing /\
  (length (history executing) <= length (history planning) + 2)%nat /\
  (planning = appStart -> head (history executing) = Some greeting).
Proof.
  apply (transcript_is_append_only asciiTrim stringifyEmpty
           [responded 0 (planSettled (Resolved dedupPlan)); clickConfirm]
           planning executing).
  vm_compute. reflexivity.
Defined.

Lemma plan_entry_only_for_steps_witness :
  exists a',
    appStep asciiTrim stringifyEmpty planning
      (responded 0 (planSettled (Resolved dedupPlan))) = Some a' /\
    proposedSteps (ctrl (hook a')) = steps dedupPlan /\
    (steps dedupPlan = [] ->
       history a' = history planning /\
       confirmOffered (ctrl (hook a')) = false) /\
    (steps dedupPlan <> [] ->
       history a'
       = (history planning
          ++ [{| role := ai;
                 content := planMessage stringifyEmpty (steps dedupPlan) |}])%list).
Proof.
  apply (plan_entry_only_for_steps asciiTrim stringifyEmpty planning 0
           "job-1" "drop duplicates" dedupPlan).
  reflexivity.
Defined.

Lemma result_entry_iff_completed_or_failed_witness :
  exists a',
    appStep asciiTrim stringifyEmpty executing
      (responded 0 (executeSettled (Resolved failedResult))) = Some a' /\
    executionResult (ctrl (hook a')) = Some failedResult /\
    confirmOffered (ctrl (hook a')) = false /\
    (status failedResult = completed ->
       history a'
       = (history executing
          ++ [{| role := ai; content := completedMessage failedResult |}])%list) /\
    (status failedResult = failed ->
       length (history a') = S (length (history executing)) /\
       forall msg, result_error failedResult = Some msg ->
         history a'
         = (history executing
            ++ [{| role := ai; content := "Execution Failed: " +:+ msg |}])%list) /\
    (status failedResult <> completed -> status failedResult <> failed ->
       history a' = history executing /\
       error (ctrl (hook a')) = error (ctrl (hook executing))).
Proof.
  apply (result_entry_iff_completed_or_failed asciiTrim stringifyEmpty
           executing 0 "job-1" failedResult).
  reflexivity.
Defined.

Lemma confirm_without_job_only_logs_witness :
  appRun asciiTrim stringifyEmpty resetWhilePlanning appStart
    = Some planWithoutJob /\
  appStep asciiTrim stringifyEmpty planWithoutJob clickConfirm
  = Some {| hook := hook planWithoutJob;
            history := history planWithoutJob
                       ++ [{| role := user;
                              content := "Confirmed. Execute plan." |}] |}.
Proof.
  split; [exact reach_planWithoutJob|].
  apply (confirm_without_job_only_logs asciiTrim stringifyEmpty planWithoutJob);
    reflexivity.
Defined.



(** X15: As long as the server never answers an upload with an empty job
    id, the interface lets the user start nothing while a request is in
    flight: every user action other than reset is either not on offer or
    does nothing, and reset is on offer only while a job is shown.  So
    during an upload, and after a reset pressed while a request was in
    flight, no user action has any effect until the response arrives. *)
Theorem busy_interface_only_offers_reset (trim : string -> string)
    (stringify : Row -> string) (evs : list UiEvent) (a : AppState)
    (e : UiEvent) :
  Forall idIssued evs ->
  appRun trim stringify evs appStart = Some a ->
  inflight (hook a) <> [] ->
  userAction e = true ->
  (e <> clickReset ->
   appStep trim stringify a e = None \/ appStep trim stringify a e = Some a) /\
  (jobId (ctrl (hook a)) = None ->
   appStep trim stringify a e = None).
Proof.
  intros Hid Hr Hfl Hu.
  destruct (appRun_serialized trim stringify evs appStart a
              appStart_serialized Hid Hr) as (_ & Hp & (Hj & _) & Hne & _).
  apply Hp in Hfl.
  destruct a as [[[j dp ps ip er up ex cd] fl] h]. simpl in *. subst ip.
  assert (Hc : confirmOffered
                 {| jobId := j; datasetProfile := dp; proposedSteps := ps;
                    isProcessing := true; error := er; uploadProgress := up;
                    executionResult := ex; currentData := cd |} = false)
    by (unfold confirmOffered; simpl; apply andb_false_r).
  split.
  - intros Hnr. destruct e as [files|input| | |p|k r];
      try discriminate Hu; simpl.
    + unfold uploaderShown, isUploading. simpl.
      destruct j as [j|]; simpl.
      * rewrite (Hne j eq_refl). now left.
      * destruct dp; [discriminate Hj|]. now left.
    + unfold chatShown, handleSubmit. simpl.
      destruct (truthy j); [right | now left].
      now rewrite andb_false_r.
    + rewrite Hc. now left.
    + now destruct Hnr.
  - intros ->. destruct dp; [discriminate Hj|].
    destruct e as [files|input| | |p|k r];
      try discriminate Hu; simpl; try reflexivity.
    now rewrite Hc.
Qed.

Lemma busy_interface_only_offers_reset_witness :
  (dropFiles [salesFile] <> clickReset ->
   appStep asciiTrim stringifyEmpty uploading (dropFiles [salesFile]) = None \/
   appStep asciiTrim stringifyEmpty uploading (dropFiles [salesFile])
   = Some uploading) /\
  (jobId (ctrl (hook uploading)) = None ->
   appStep asciiTrim stringifyEmpty uploading (dropFiles [salesFile]) = None).
Proof.
  apply (busy_interface_only_offers_reset asciiTrim stringifyEmpty
           [dropFiles [salesFile]] uploading (dropFiles [salesFile])).
  - repeat constructor.
  - reflexivity.
  - discriminate.
  - reflexivity.
Defined.
